(** * Drug Inspector: the text normaliser, dataset shaping and banned-drug
    matcher of [ocr_matcher.py]

    Python [str] values are sequences of Unicode code points; they are
    modelled as lists of code points ([N]).  The two case-mapping methods of
    [str] that the program calls ([lower], [capitalize]) depend on the Unicode
    character database and are taken through an interface that fixes what
    they do on ASCII text.  [fuzz.partial_ratio] belongs to the rapidfuzz
    package and is a parameter of the matcher. *)

From Stdlib Require Import String Ascii QArith.
From stdpp Require Import base decidable numbers list sorting gmap.

Close Scope Q_scope.
Set Warnings "-clear-no-such-hyp".
Local Open Scope N_scope.

(** ** Strings *)

Definition lit (s : string) : list N :=
  N_of_ascii <$> list_ascii_of_string s.

Definition SPACE : N := 32.

Definition is_ascii (c : N) : Prop := c < 128.

(** [a-z] and [0-9] of the regular expression in [normalize]. *)
Definition is_az (c : N) : bool := (97 <=? c) && (c <=? 122).
Definition is_09 (c : N) : bool := (48 <=? c) && (c <=? 57).
Definition is_AZ (c : N) : bool := (65 <=? c) && (c <=? 90).

(** Whitespace as [\s] of [re] on [str] patterns and [str.strip()] see it
    (CPython's Py_UNICODE_ISSPACE). *)
Definition isspace (c : N) : bool :=
  ((9 <=? c) && (c <=? 13)) || ((28 <=? c) && (c <=? 32))
  || (c =? 133) || (c =? 160) || (c =? 5760)
  || ((8192 <=? c) && (c <=? 8202))
  || (c =? 8232) || (c =? 8233) || (c =? 8239) || (c =? 8287)
  || (c =? 12288).

Definition ascii_lower (c : N) : N := if is_AZ c then c + 32 else c.
Definition ascii_upper (c : N) : N := if is_az c then c - 32 else c.

(** The case mappings of [str].  On ASCII text they are the familiar ones;
    elsewhere they are whatever the interpreter's Unicode tables say. *)
Class PyCasing := {
  str_lower : list N → list N;
  str_capitalize : list N → list N;
  str_lower_ascii : ∀ s, Forall is_ascii s → str_lower s = ascii_lower <$> s;
  str_capitalize_ascii : ∀ s, Forall is_ascii s →
    str_capitalize s =
      match s with
      | [] => []
      | c :: r => ascii_upper c :: (ascii_lower <$> r)
      end
}.

(** A casing that can be run: ASCII, plus the two code points outside ASCII
    whose lowercase holds an ASCII letter (KELVIN SIGN and LATIN CAPITAL
    LETTER I WITH DOT ABOVE); all other code points are left as they are. *)
Definition lower_cp (c : N) : list N :=
  if c =? 8490 then [107]
  else if c =? 304 then [105; 775]
  else [ascii_lower c].

Definition basic_lower (s : list N) : list N := s ≫= lower_cp.

Definition basic_capitalize (s : list N) : list N :=
  match s with
  | [] => []
  | c :: r => ascii_upper c :: basic_lower r
  end.

(** ** Text normalisation *)

Section Normalize.
Context {casing : PyCasing}.

(** [re.sub(r"[^a-z0-9\s]", " ", text)] *)
Definition sub_other (s : list N) : list N :=
  (λ c, if is_az c || is_09 c || isspace c then c else SPACE) <$> s.

(** [re.sub(r"\s+", " ", text)]: every maximal run of whitespace becomes
    one space.  [in_run] tells that the previous character was whitespace. *)
Fixpoint collapse_ws (in_run : bool) (s : list N) : list N :=
  match s with
  | [] => []
  | c :: r =>
      if isspace c
      then (if in_run then collapse_ws true r else SPACE :: collapse_ws true r)
      else c :: collapse_ws false r
  end.

Fixpoint lstrip (s : list N) : list N :=
  match s with
  | [] => []
  | c :: r => if isspace c then lstrip r else s
  end.

Fixpoint rstrip (s : list N) : list N :=
  match s with
  | [] => []
  | c :: r =>
      match rstrip r with
      | [] => if isspace c then [] else [c]
      | r' => c :: r'
      end
  end.

(** [text.strip()] *)
Definition strip (s : list N) : list N := rstrip (lstrip s).

Definition normalize (text : list N) : list N :=
  let text := str_lower text in
  let text := sub_other text in
  let text := collapse_ws false text in
  strip text.
End Normalize.

(** What the specification promises of a normalised string. *)
Definition norm_char (c : N) : Prop :=
  is_az c = true ∨ is_09 c = true ∨ c = SPACE.

Record normalized (s : list N) : Prop := {
  norm_chars : Forall norm_char s;
  norm_head : head s ≠ Some SPACE;
  norm_last : last s ≠ Some SPACE;
  norm_single : ∀ i : nat, s !! i = Some SPACE → s !! S i ≠ Some SPACE
}.

(** No space is followed by a space. *)
Fixpoint single_spaced (s : list N) : Prop :=
  match s with
  | [] => True
  | c :: r => (c = SPACE → head r ≠ Some SPACE) ∧ single_spaced r
  end.

(** What the first substitution of [normalize] leaves. *)
Definition kept_char (c : N) : Prop :=
  is_az c = true ∨ is_09 c = true ∨ isspace c = true.

(** A string as [normalize] leaves it, in the form the proofs use. *)
Record clean (s : list N) : Prop := {
  clean_chars : Forall norm_char s;
  clean_single : single_spaced s;
  clean_head : ∀ c, head s = Some c → isspace c = false;
  clean_last : ∀ c, last s = Some c → isspace c = false
}.

(** ** Substring test, joining, ordering *)

(** [n] occurs in [h] as a contiguous run. *)
Definition substring (n h : list N) : Prop := ∃ pre post, h = pre ++ n ++ post.

Fixpoint is_prefix (p s : list N) : bool :=
  match p, s with
  | [], _ => true
  | _ :: _, [] => false
  | a :: p', b :: s' => (a =? b) && is_prefix p' s'
  end.

(** [needle in hay] on [str]: [needle] occurs in [hay] as a contiguous run. *)
Fixpoint contains (needle hay : list N) : bool :=
  is_prefix needle hay ||
  match hay with
  | [] => false
  | _ :: hay' => contains needle hay'
  end.

(** [sep.join(parts)] *)
Fixpoint join (sep : list N) (parts : list (list N)) : list N :=
  match parts with
  | [] => []
  | [p] => p
  | p :: rest => p ++ sep ++ join sep rest
  end.

(** The order of [str]: lexicographic on code points. *)
Fixpoint str_leb (a b : list N) : bool :=
  match a, b with
  | [], _ => true
  | _ :: _, [] => false
  | x :: a', y :: b' =>
      if x <? y then true else if y <? x then false else str_leb a' b'
  end.

Definition str_le (a b : list N) : Prop := str_leb a b = true.
Definition str_lt (a b : list N) : Prop := str_le a b ∧ a ≠ b.

Global Instance str_le_dec a b : Decision (str_le a b).
Proof. unfold str_le. apply _. Defined.

(** [sorted(found)] for a set of strings. *)
Definition sorted (found : gset (list N)) : list (list N) :=
  merge_sort str_le (elements found).

(** ** The matcher *)

Record DatasetRow := {
  brand : list N;
  generic : list N;
  is_banned : bool;
  batch : list N
}.

Definition BANNED_KEYWORDS : list (list N) := [lit "nimesulide"].

Definition FUZZY_THRESHOLD : Z := 85.

Section Matcher.
Context {casing : PyCasing}.
(** [fuzz.partial_ratio], a score between 0 and 100. *)
Variable partial_ratio : list N → list N → Q.

(** One turn of the loop over [dataset_rows]. *)
Definition scan_row (invoice_text : list N) (found_banned : gset (list N))
    (r : DatasetRow) : gset (list N) :=
  if negb (is_banned r) then found_banned
  else
    let g := normalize (generic r) in
    match g with
    | [] => found_banned
    | _ =>
        if contains g invoice_text then {[ generic r ]} ∪ found_banned
        else
          let score := partial_ratio g invoice_text in
          if Qle_bool (inject_Z FUZZY_THRESHOLD) score
          then {[ generic r ]} ∪ found_banned
          else found_banned
    end.

(** One turn of the loop over [BANNED_KEYWORDS]. *)
Definition scan_keyword (invoice_text : list N) (found_banned : gset (list N))
    (kw : list N) : gset (list N) :=
  if contains kw invoice_text then {[ str_capitalize kw ]} ∪ found_banned
  else found_banned.

Definition invoice_text_of (ocr_texts : list (list N)) : list N :=
  normalize (join [10] ocr_texts).

Definition find_banned_drugs_in_invoice (ocr_texts : list (list N))
    (dataset_rows : list DatasetRow) : list (list N) :=
  let invoice_text := invoice_text_of ocr_texts in
  let found_banned := foldl (scan_row invoice_text) ∅ dataset_rows in
  let found_banned := foldl (scan_keyword invoice_text) found_banned BANNED_KEYWORDS in
  sorted found_banned.

(** When the loop adds the generic name of a row. *)
Definition row_hits (invoice_text : list N) (r : DatasetRow) : Prop :=
  is_banned r = true ∧ normalize (generic r) ≠ [] ∧
  (contains (normalize (generic r)) invoice_text = true ∨
   Qle_bool (inject_Z FUZZY_THRESHOLD)
     (partial_ratio (normalize (generic r)) invoice_text) = true).
End Matcher.

(** ** Dataset loading *)

(** A value of a [csv.DictReader] row: a field of the line, or [None] where
    the line has fewer fields than the header ([restval]). *)
Inductive cell := CStr (s : list N) | CNone.

(** A row of [csv.DictReader], by column name.  (Surplus fields of a long
    line sit under the key [None], which the program never reads.) *)
Abbreviation raw_record := (gmap (list N) cell).

Inductive exn :=
  | AttributeError
  | OSError
  | UnicodeDecodeError
  | CsvError.

Inductive result (A : Type) :=
  | Ok (a : A)
  | Raise (e : exn).
Arguments Ok {A} a.
Arguments Raise {A} e.

Global Instance result_ret : MRet result := λ A a, Ok a.
Global Instance result_bind : MBind result := λ A B f m,
  match m with
  | Ok a => f a
  | Raise e => Raise e
  end.

(** [r.get(key, "")] *)
Definition get_or_empty (r : raw_record) (key : list N) : cell :=
  default (CStr []) (r !! key).

(** [v.strip()]: [None] has no such method. *)
Definition strip_method (v : cell) : result (list N) :=
  match v with
  | CStr s => Ok (strip s)
  | CNone => Raise AttributeError
  end.

(** [str(v)] *)
Definition str_of (v : cell) : list N :=
  match v with
  | CStr s => s
  | CNone => lit "None"
  end.

Section Dataset.
Context {casing : PyCasing}.

(** [str(r.get("is_banned", "")).lower() == "true"] *)
Definition parse_is_banned (r : raw_record) : bool :=
  bool_decide (str_lower (str_of (get_or_empty r (lit "is_banned"))) = lit "true").

(** The dictionary built for one row, its values evaluated in order. *)
Definition shape_row (r : raw_record) : result DatasetRow :=
  b ← strip_method (get_or_empty r (lit "brand"));
  g ← strip_method (get_or_empty r (lit "generic"));
  let ib := parse_is_banned r in
  bt ← strip_method (get_or_empty r (lit "batch"));
  mret {| brand := b; generic := g; is_banned := ib; batch := bt |}.

(** The inner loop: [rows.append(...)] for every row of the reader. *)
Fixpoint append_rows (rows : list DatasetRow) (reader : list raw_record)
    : result (list DatasetRow) :=
  match reader with
  | [] => Ok rows
  | r :: reader' =>
      row ← shape_row r;
      append_rows (rows ++ [row]) reader'
  end.

(** What lies behind a path that [os.path.exists] accepts: something that
    [open] refuses; a table that the reader reads to its end; or a table
    whose reading breaks off with an exception (bytes that are not UTF-8, a
    line that [csv] refuses) after the rows it has yielded. *)
Inductive source :=
  | Unreadable (e : exn)
  | Table (records : list raw_record)
  | Broken (records : list raw_record) (e : exn).

(** [open(p, encoding="utf-8")] and [csv.DictReader(f)] over the file system
    (the paths that exist, with what they hold): the rows the reader yields,
    and the exception that ends the reading when it does not reach the end. *)
Definition open_read (fs : gmap (list N) source) (p : list N)
    : result (list raw_record * option exn) :=
  match fs !! p with
  | Some (Table records) => Ok (records, None)
  | Some (Broken records e) => Ok (records, Some e)
  | Some (Unreadable e) => Raise e
  | None => Raise OSError
  end.

(** The loop [for r in reader] over one file. *)
Definition read_rows (rows : list DatasetRow)
    (reader : list raw_record * option exn) : result (list DatasetRow) :=
  rows' ← append_rows rows reader.1;
  match reader.2 with
  | Some e => Raise e
  | None => Ok rows'
  end.

(** [not p or not os.path.exists(p)] for a path that is a string or [None]. *)
Definition skipped (fs : gmap (list N) source) (p : option (list N)) : bool :=
  match p with
  | None => true
  | Some [] => true
  | Some name => bool_decide (fs !! name = None)
  end.

Fixpoint load_into (fs : gmap (list N) source) (rows : list DatasetRow)
    (csv_paths : list (option (list N))) : result (list DatasetRow) :=
  match csv_paths with
  | [] => Ok rows
  | p :: rest =>
      if skipped fs p then load_into fs rows rest
      else
        reader ← open_read fs (default [] p);
        rows' ← read_rows rows reader;
        load_into fs rows' rest
  end.

Definition load_dataset_csv (fs : gmap (list N) source)
    (csv_paths : list (option (list N))) : result (list DatasetRow) :=
  load_into fs [] csv_paths.
End Dataset.

(** ** Reading a line of the table *)

(** One row of [csv.DictReader]: [dict(zip(fieldnames, row))], then [None]
    ([restval]) under every field name the line is too short to reach.  (The
    reader passes over blank lines, so [row] is not empty when it gets here.) *)
Definition dict_reader_row (fieldnames row : list (list N)) : raw_record :=
  let d := foldl (λ (m : raw_record) kv, <[kv.1 := CStr kv.2]> m) ∅ (zip fieldnames row) in
  foldl (λ (m : raw_record) k, <[k := CNone]> m) d (drop (length row) fieldnames).

(** ** The pipeline *)

Record InvoiceResult := {
  ocr_text : list N;
  banned_drugs : list (list N)
}.

(** How a call of [process_invoice] ends: with its dictionary, or with the
    exception of the OCR side or of the dataset side. *)
Inductive outcome (E : Type) :=
  | Done (r : InvoiceResult)
  | OcrFailed (e : E)
  | DatasetFailed (e : exn).
Arguments Done {E} r.
Arguments OcrFailed {E} e.
Arguments DatasetFailed {E} e.

Section Pipeline.
Context {casing : PyCasing}.
Variable partial_ratio : list N → list N → Q.
(** [ocr_pdf_text]: the pages' text from pdf2image and tesseract, or their
    exception. *)
Context {E : Type}.
Variable ocr_pdf_text : list N → E + list (list N).

Definition process_invoice (fs : gmap (list N) source) (pdf_path : list N)
    (dataset_csvs : list (option (list N))) : outcome E :=
  match ocr_pdf_text pdf_path with
  | inl e => OcrFailed e
  | inr ocr_texts =>
      match load_dataset_csv fs dataset_csvs with
      | Raise e => DatasetFailed e
      | Ok dataset_rows =>
          let banned_found :=
            find_banned_drugs_in_invoice partial_ratio ocr_texts dataset_rows in
          Done {| ocr_text := join [10] ocr_texts; banned_drugs := banned_found |}
      end
  end.
End Pipeline.

(** ** The upload filter of the web application *)

Definition ALLOWED_EXTENSIONS : list (list N) :=
  [lit "pdf"; lit "png"; lit "jpg"; lit "jpeg"; lit "tiff"].

Definition DOT : N := 46.

(** [s.rsplit(".", 1)]: [s] cut at its last dot, or [s] alone. *)
Fixpoint rsplit_dot (s : list N) : list (list N) :=
  match s with
  | [] => [[]]
  | c :: r =>
      match rsplit_dot r with
      | [t] => if c =? DOT then [[]; t] else [c :: t]
      | h :: rest => (c :: h) :: rest
      | [] => []
      end
  end.

Section Webapp.
Context {casing : PyCasing}.

(** [allowed_file]; [None] stands for the [IndexError] of [[1]]. *)
Definition allowed_file (filename : list N) : option bool :=
  if contains [DOT] filename
  then
    ext ← rsplit_dot filename !! 1%nat;
    Some (bool_decide (str_lower ext ∈ ALLOWED_EXTENSIONS))
  else Some false.
End Webapp.

(** ** The demo dataset generator *)

(** An entry of [items]; [F] is the type of floats. *)
Record Item (F : Type) := {
  item_brand : list N;
  item_generic : list N;
  item_strength : list N;
  item_qty : Z;
  item_price : F;
  item_gst : Z;
  item_gst_amount : F;
  item_line_total : F;
  item_batch : list N;
  item_is_banned : bool
}.
Arguments item_brand {F} _.
Arguments item_generic {F} _.
Arguments item_strength {F} _.
Arguments item_qty {F} _.
Arguments item_price {F} _.
Arguments item_gst {F} _.
Arguments item_gst_amount {F} _.
Arguments item_line_total {F} _.
Arguments item_batch {F} _.
Arguments item_is_banned {F} _.

(** A record of [generate_invoice] without its items. *)
Record InvoiceHead := {
  invoice_id : list N;
  pdf : list N;
  pharmacy : list N;
  date : list N;
  doctor : list N
}.

(** The header line of [save_dataset]. *)
Definition DATASET_HEADER : list (list N) :=
  [lit "invoice_id"; lit "pdf"; lit "pharmacy"; lit "date"; lit "doctor"; lit "brand";
   lit "generic"; lit "strength"; lit "batch"; lit "qty"; lit "price"; lit "gst";
   lit "line_total"; lit "is_banned"].

(** A field that the [csv] module hands back as it was written, whatever the
    newline handling of the two [open] calls: printable ASCII (so no carriage
    return or line feed for the reading side to translate, nothing that UTF-8
    cannot carry), and no longer than the reader's field size limit. *)
Definition csv_plain (field : list N) : Prop :=
  Forall (λ c, 32 ≤ c ∧ c ≤ 126) field ∧ N.of_nat (length field) ≤ 131072.

(** [str(b)] for a [bool], as [csv.writer] writes it. *)
Definition str_of_bool (b : bool) : list N := if b then lit "True" else lit "False".

Section Generator.
Context {F : Type}.
(** [str(n)] for an [int] and [f"{x:.2f}"] for a float. *)
Variable str_of_int : Z → list N.
Variable format_2f : F → list N.

(** The fields of the line that [save_dataset] writes for one item.  Between
    [writer.writerow] and the reader lies the file; for [csv_plain] fields
    the reader yields the fields as they stand here. *)
Definition dataset_line (rec : InvoiceHead) (item : Item F) : list (list N) :=
  [invoice_id rec; pdf rec; pharmacy rec; date rec; doctor rec; item_brand item;
   item_generic item; item_strength item; item_batch item;
   str_of_int (item_qty item); format_2f (item_price item);
   str_of_int (item_gst item); format_2f (item_line_total item);
   str_of_bool (item_is_banned item)].
End Generator.

(** ** Notions used in the statements *)

(** A letter of [a-z] or a digit. *)
Definition alnum (c : N) : bool := is_az c || is_09 c.

(** No end of [s] is whitespace. *)
Definition trimmed (s : list N) : Prop :=
  (∀ c, head s = Some c → isspace c = false) ∧
  (∀ c, last s = Some c → isspace c = false).

(** None of the three text columns is [None]. *)
Definition text_cells_present (r : raw_record) : Prop :=
  r !! lit "brand" ≠ Some CNone ∧ r !! lit "generic" ≠ Some CNone ∧
  r !! lit "batch" ≠ Some CNone.

(** A listed file that [open] refuses, or whose reading breaks off after
    rows that can all be shaped. *)
Definition source_fails (fs : gmap (list N) source) (name : list N) (e : exn) : Prop :=
  fs !! name = Some (Unreadable e) ∨
  ∃ records, fs !! name = Some (Broken records e) ∧ Forall text_cells_present records.

(** The value that the reader gives the column at position [i] of a line. *)
Definition cell_at (row : list (list N)) (i : nat) : cell :=
  match row !! i with
  | Some v => CStr v
  | None => CNone
  end.

(** [dict_reader_row] over a dictionary that already holds [m]. *)
Definition reader_fill (m : raw_record) (fieldnames row : list (list N)) : raw_record :=
  foldl (λ (m : raw_record) k, <[k := CNone]> m)
    (foldl (λ (m : raw_record) kv, <[kv.1 := CStr kv.2]> m) m (zip fieldnames row))
    (drop (length row) fieldnames).

(** A listed source that is passed over, or one that is read with success:
    a table that the reader reads to its end, every row of which can be
    shaped. *)
Definition source_loads (fs : gmap (list N) source) (p : option (list N)) : Prop :=
  skipped fs p = true ∨
  ∃ records, fs !! default [] p = Some (Table records) ∧
             Forall text_cells_present records.

(** ** Sample data *)

(** The row that [csv.DictReader] yields for the line [Foo,Bar] under the
    header [brand,generic,is_banned,batch]: the two fields the line lacks
    are [None]. *)
Definition short_row : raw_record :=
  list_to_map [(lit "brand", CStr (lit "Foo")); (lit "generic", CStr (lit "Bar"));
               (lit "is_banned", CNone); (lit "batch", CNone)].

(** A full row, with padding around the brand and an upper-case flag. *)
Definition full_row : raw_record :=
  list_to_map [(lit "brand", CStr (lit " Nise ")); (lit "generic", CStr (lit "Nimesulide"));
               (lit "is_banned", CStr (lit "TRUE")); (lit "batch", CStr (lit "B-17"))].

Definition full_row_shaped : DatasetRow :=
  {| brand := lit "Nise"; generic := lit "Nimesulide"; is_banned := true;
     batch := lit "B-17" |}.

(** Three sources: a table that can be read, a path that exists but cannot
    be opened, and a table whose bytes stop being UTF-8 after its first row. *)
Definition sample_fs : gmap (list N) source :=
  list_to_map [(lit "train.csv", Table [full_row]);
               (lit "locked.csv", Unreadable OSError);
               (lit "torn.csv", Broken [full_row] UnicodeDecodeError)].

Definition cefixime_row : DatasetRow :=
  {| brand := lit "Taxim-O"; generic := lit "Cefixime"; is_banned := true;
     batch := lit "B-01" |}.

Definition paracetamol_row : DatasetRow :=
  {| brand := lit "Crocin"; generic := lit "Paracetamol"; is_banned := false;
     batch := lit "B-02" |}.

Definition sample_invoice : list (list N) :=
  [lit "Item: CEFIXIME-200mg tablet"; lit "Paracetamol 500; Nimesulide 100"].

Definition noisy_invoice : list (list N) := [lit "Item: cefixlme 200"].

Definition score_of (n : Z) : list N → list N → Q := λ _ _, inject_Z n.

Definition four_columns : list (list N) :=
  [lit "brand"; lit "generic"; lit "is_banned"; lit "batch"].

Definition shouting_invoice : list (list N) := [lit "Tab NIMESULIDE 100mg"].

Definition cefixime_upper_row : DatasetRow :=
  {| brand := lit "Taxim-O"; generic := lit "CEFIXIME"; is_banned := true;
     batch := lit "B-03" |}.

(** The pool's banned "Nimesulide DT" as an item of an invoice, with the
    renderings of its numbers. *)
Definition nimesulide_item : Item Z :=
  {| item_brand := lit "Nimesulide DT"; item_generic := lit "Nimesulide";
     item_strength := lit "100mg"; item_qty := 2%Z; item_price := 12050%Z;
     item_gst := 12%Z; item_gst_amount := 2892%Z; item_line_total := 26992%Z;
     item_batch := lit "K3X9Q2LM"; item_is_banned := true |}.

Definition train_head : InvoiceHead :=
  {| invoice_id := lit "TRAIN-0001"; pdf := lit "output/train/TRAIN-0001.pdf";
     pharmacy := lit "CityMed Pharmacy"; date := lit "2025-03-14";
     doctor := lit "DR-482913" |}.

(** Stand-ins for [str] on the two integers and for the two-decimal format
    on the two amounts of [nimesulide_item] (amounts held in hundredths). *)
Definition sample_str_of_int (n : Z) : list N :=
  if (n =? 2)%Z then lit "2" else lit "12".
Definition sample_format_2f (x : Z) : list N :=
  if (x =? 12050)%Z then lit "120.50" else lit "269.92".

(** A banned row whose generic name holds no letter and no digit. *)
Definition blank_row : DatasetRow :=
  {| brand := lit "?"; generic := lit "+/- ..."; is_banned := true; batch := lit "B-04" |}.

(** * Properties *)

(** ** Character classes *)

Lemma isspace_SPACE : isspace SPACE = true.
Proof. reflexivity. Qed.

(** Turns the boolean tests on code points into arithmetic. *)
Ltac char_arith :=
  unfold norm_char, is_ascii, ascii_lower, ascii_upper, is_az, is_09, is_AZ,
    isspace, SPACE in *;
  rewrite ?orb_true_iff, ?andb_true_iff, ?N.leb_le, ?N.eqb_eq in *.

Lemma is_az_not_space c : is_az c = true → isspace c = false.
Proof. intros Hc. apply not_true_is_false. intros Hs. char_arith. lia. Qed.

Lemma is_09_not_space c : is_09 c = true → isspace c = false.
Proof. intros Hc. apply not_true_is_false. intros Hs. char_arith. lia. Qed.

Lemma norm_char_space c : norm_char c → isspace c = true → c = SPACE.
Proof.
  intros [Hc | [Hc | Hc]] Hs; [| | done].
  - apply is_az_not_space in Hc. congruence.
  - apply is_09_not_space in Hc. congruence.
Qed.

Lemma norm_char_is_ascii c : norm_char c → is_ascii c.
Proof. intros Hc. char_arith. lia. Qed.

Lemma norm_char_lower c : norm_char c → ascii_lower c = c.
Proof.
  intros Hc. unfold ascii_lower. destruct (is_AZ c) eqn:Hu; [| done].
  char_arith. lia.
Qed.

Lemma norm_char_kept c :
  norm_char c → (if is_az c || is_09 c || isspace c then c else SPACE) = c.
Proof.
  intros [Hc | [Hc | Hc]].
  - by rewrite Hc.
  - rewrite Hc. by rewrite orb_true_r.
  - by case_match.
Qed.

(** ** Single spacing *)

Lemma single_spaced_lookup s :
  single_spaced s → ∀ i : nat, s !! i = Some SPACE → s !! S i ≠ Some SPACE.
Proof.
  induction s as [| c r IH]; intros Hs i Hi; [done |].
  destruct Hs as [Hc Hr]. destruct i as [| i]; simpl in *.
  - simplify_eq. specialize (Hc eq_refl). by destruct r.
  - by apply IH.
Qed.

Lemma single_spaced_app_r s1 s2 : single_spaced (s1 ++ s2) → single_spaced s2.
Proof. induction s1 as [| c r IH]; [done |]. intros [_ Hr]. by apply IH. Qed.

Lemma single_spaced_app_l s1 s2 : single_spaced (s1 ++ s2) → single_spaced s1.
Proof.
  induction s1 as [| c r IH]; [done |]. intros [Hc Hr]. split; [| by apply IH].
  intros Heq. specialize (Hc Heq). by destruct r.
Qed.

(** ** The steps of [normalize] *)

Lemma sub_other_kept s : Forall kept_char (sub_other s).
Proof.
  unfold sub_other. apply Forall_fmap, Forall_forall. intros c _. simpl.
  unfold kept_char.
  destruct (is_az c) eqn:Ha; [auto |]. destruct (is_09 c) eqn:Hd; [auto |].
  destruct (isspace c) eqn:Hs; simpl; auto using isspace_SPACE.
Qed.

Lemma sub_other_id s : Forall norm_char s → sub_other s = s.
Proof.
  unfold sub_other. induction 1 as [| c r Hc _ IH]; [done |].
  rewrite fmap_cons, IH. f_equal. by apply norm_char_kept.
Qed.

Lemma collapse_ws_spec s : ∀ b,
  Forall kept_char s →
  Forall norm_char (collapse_ws b s) ∧ single_spaced (collapse_ws b s) ∧
  (b = true → head (collapse_ws b s) ≠ Some SPACE).
Proof.
  induction s as [| c r IH]; intros b Hs; [by destruct b |].
  apply Forall_cons in Hs as [Hc Hr]. simpl.
  destruct (isspace c) eqn:Hsp.
  - destruct b.
    + by apply IH.
    + destruct (IH true Hr) as (Hn & Hss & Hh).
      split_and!; [| split; [auto | done] | done].
      constructor; [| done]. right. by right.
  - destruct (IH false Hr) as (Hn & Hss & _).
    assert (c ≠ SPACE) as Hne by (intros ->; by rewrite isspace_SPACE in Hsp).
    split_and!; [| split; [done | done] | intros _; simpl; congruence].
    constructor; [| done].
    destruct Hc as [Hc | [Hc | Hc]]; [by left | right; by left | congruence].
Qed.

Lemma collapse_ws_id s : ∀ b,
  Forall norm_char s → single_spaced s → (b = true → head s ≠ Some SPACE) →
  collapse_ws b s = s.
Proof.
  induction s as [| c r IH]; intros b Hn Hs Hb; [done |].
  apply Forall_cons in Hn as [Hc Hr]. destruct Hs as [Hcs Hrs]. simpl.
  destruct (isspace c) eqn:Hsp.
  - pose proof (norm_char_space _ Hc Hsp) as ->.
    destruct b; [by specialize (Hb eq_refl) |].
    f_equal. apply IH; auto.
  - f_equal. apply IH; auto; done.
Qed.

Lemma lstrip_suffix s : ∃ k, s = k ++ lstrip s.
Proof.
  induction s as [| c r [k IH]]; [by exists [] |]. simpl.
  destruct (isspace c).
  - exists (c :: k). simpl. by f_equal.
  - by exists [].
Qed.

Lemma lstrip_head s c : head (lstrip s) = Some c → isspace c = false.
Proof.
  induction s as [| d r IH]; [done |]. simpl.
  destruct (isspace d) eqn:Hd; [done |]. simpl. by intros [= <-].
Qed.

Lemma lstrip_id s : (∀ c, head s = Some c → isspace c = false) → lstrip s = s.
Proof. destruct s as [| c r]; [done |]. intros Hc. simpl. by rewrite (Hc c). Qed.

Lemma rstrip_prefix s : ∃ k, s = rstrip s ++ k.
Proof.
  induction s as [| c r [k IH]]; [by exists [] |]. simpl.
  destruct (rstrip r) as [| d r'] eqn:Hr.
  - destruct (isspace c); [by exists (c :: r) |]. exists k. simpl. by f_equal.
  - exists k. simpl. by f_equal.
Qed.

Lemma rstrip_head s c : head (rstrip s) = Some c → head s = Some c.
Proof.
  destruct (rstrip_prefix s) as [k Hk]. intros Hh. rewrite Hk.
  by destruct (rstrip s).
Qed.

Lemma rstrip_last s c : last (rstrip s) = Some c → isspace c = false.
Proof.
  induction s as [| d r IH]; [done |]. simpl.
  destruct (rstrip r) as [| e r'] eqn:Hr.
  - destruct (isspace d) eqn:Hd; [done |]. simpl. by intros [= <-].
  - rewrite last_cons_cons. done.
Qed.

Lemma rstrip_id s : (∀ c, last s = Some c → isspace c = false) → rstrip s = s.
Proof.
  induction s as [| d r IH]; [done |]. intros Hl. simpl.
  destruct r as [| e r'].
  - simpl. by rewrite (Hl d).
  - rewrite IH; [done |]. intros c Hc. apply Hl. by rewrite last_cons_cons.
Qed.

Lemma strip_clean s : Forall norm_char s → single_spaced s → clean (strip s).
Proof.
  intros Hn Hs. unfold strip.
  destruct (lstrip_suffix s) as [k1 Hk1].
  destruct (rstrip_prefix (lstrip s)) as [k2 Hk2].
  rewrite Hk1 in Hn, Hs. apply Forall_app in Hn as [_ Hn].
  apply single_spaced_app_r in Hs.
  rewrite Hk2 in Hn, Hs. apply Forall_app in Hn as [Hn _].
  apply single_spaced_app_l in Hs.
  split; [done | done | | apply rstrip_last].
  intros c Hc. apply rstrip_head in Hc. by apply lstrip_head in Hc.
Qed.

Lemma strip_id s : clean s → strip s = s.
Proof.
  intros [_ _ Hh Hl]. unfold strip. rewrite lstrip_id by done. by apply rstrip_id.
Qed.

Section NormalizeFacts.
Context {casing : PyCasing}.

Lemma normalize_clean s : clean (normalize s).
Proof.
  unfold normalize.
  destruct (collapse_ws_spec (sub_other (str_lower s)) false (sub_other_kept _))
    as (Hn & Hs & _).
  by apply strip_clean.
Qed.

Lemma str_lower_clean s : Forall norm_char s → str_lower s = s.
Proof.
  intros Hn. rewrite str_lower_ascii.
  - induction Hn as [| c r Hc _ IH]; [done |].
    rewrite fmap_cons, IH. f_equal. by apply norm_char_lower.
  - eapply Forall_impl; [done |]. apply norm_char_is_ascii.
Qed.

Lemma normalize_fixes_clean s : clean s → normalize s = s.
Proof.
  intros Hc. pose proof Hc as [Hn Hs Hh Hl]. unfold normalize.
  rewrite str_lower_clean, sub_other_id by done.
  rewrite collapse_ws_id; [by apply strip_id | done | done | done].
Qed.

(** C7: for every string [s], [normalize s] is defined (the function is
    total), holds only characters of [a-z0-9 ], neither starts nor ends
    with a space, and has no two spaces in a row. *)
Theorem normalize_output_shape (s : list N) : normalized (normalize s).
Proof.
  destruct (normalize_clean s) as [Hn Hs Hh Hl].
  split; [done | | | by apply single_spaced_lookup].
  - intros Hc. apply Hh in Hc. by rewrite isspace_SPACE in Hc.
  - intros Hc. apply Hl in Hc. by rewrite isspace_SPACE in Hc.
Qed.

(** C6: normalisation is idempotent: [normalize (normalize s) = normalize s]
    for every string [s]. *)
Theorem normalize_idempotent (s : list N) :
  normalize (normalize s) = normalize s.
Proof. apply normalize_fixes_clean, normalize_clean. Qed.
End NormalizeFacts.

(** ** The runnable casing *)

Lemma basic_lower_ascii s : Forall is_ascii s → basic_lower s = ascii_lower <$> s.
Proof.
  induction 1 as [| c r Hc _ IH]; [done |].
  unfold basic_lower in *. rewrite bind_cons, IH, fmap_cons.
  unfold lower_cp, is_ascii in *.
  destruct (N.eqb_spec c 8490); [lia |]. destruct (N.eqb_spec c 304); [lia | done].
Qed.

Lemma basic_capitalize_ascii s :
  Forall is_ascii s →
  basic_capitalize s =
    match s with
    | [] => []
    | c :: r => ascii_upper c :: (ascii_lower <$> r)
    end.
Proof.
  destruct s as [| c r]; [done |]. intros [_ Hr]%Forall_cons. simpl.
  by rewrite basic_lower_ascii.
Qed.

Definition basic_casing : PyCasing := {|
  str_lower := basic_lower;
  str_capitalize := basic_capitalize;
  str_lower_ascii := basic_lower_ascii;
  str_capitalize_ascii := basic_capitalize_ascii
|}.

(** ** Substrings *)

Lemma is_prefix_spec p : ∀ s, is_prefix p s = true ↔ ∃ post, s = p ++ post.
Proof.
  induction p as [| a p IH]; intros s; simpl.
  - split; [by exists s | done].
  - destruct s as [| b s]; [split; [done | by intros [? ?]] |].
    rewrite andb_true_iff, N.eqb_eq, IH. split.
    + intros [-> [post ->]]. by exists post.
    + intros [post [= -> ->]]. eauto.
Qed.

Lemma contains_spec n : ∀ h, contains n h = true ↔ substring n h.
Proof.
  induction h as [| b h IH]; simpl; rewrite orb_true_iff, is_prefix_spec.
  - split.
    + intros [[post Hp] | ?]; [| done]. by exists [], post.
    + intros (pre & post & Hp). left.
      destruct pre; [by exists post | done].
  - rewrite IH. split.
    + intros [[post Hp] | (pre & post & Hp)].
      * by exists [], post.
      * exists (b :: pre), post. simpl. by f_equal.
    + intros (pre & post & Hp). destruct pre as [| c pre].
      * left. by exists post.
      * right. injection Hp as -> ->. by exists pre, post.
Qed.

(** ** The order of strings and [sorted] *)

Global Instance str_le_total : Total str_le.
Proof.
  intros a. unfold str_le. induction a as [| x a IH]; intros [| y b]; simpl; auto.
  destruct (N.ltb_spec x y), (N.ltb_spec y x); auto; lia.
Qed.

Global Instance str_le_trans : Transitive str_le.
Proof.
  intros a. unfold str_le.
  induction a as [| x a IH]; intros [| y b] [| z c]; simpl; try done.
  destruct (N.ltb_spec x y), (N.ltb_spec y x), (N.ltb_spec y z), (N.ltb_spec z y),
    (N.ltb_spec x z), (N.ltb_spec z x); try done; try lia.
  apply IH.
Qed.

Global Instance str_le_antisymm : AntiSymm (=) str_le.
Proof.
  intros a. unfold str_le. induction a as [| x a IH]; intros [| y b]; simpl; try done.
  destruct (N.ltb_spec x y), (N.ltb_spec y x); try done; try lia.
  intros Hab Hba. f_equal; [lia | by apply IH].
Qed.

Lemma sorted_elem_of (found : gset (list N)) x : x ∈ sorted found ↔ x ∈ found.
Proof. unfold sorted. by rewrite merge_sort_Permutation, elem_of_elements. Qed.

Lemma sorted_NoDup (found : gset (list N)) : NoDup (sorted found).
Proof. unfold sorted. rewrite merge_sort_Permutation. apply NoDup_elements. Qed.

Lemma sorted_StronglySorted (found : gset (list N)) :
  StronglySorted str_le (sorted found).
Proof. apply StronglySorted_merge_sort; apply _. Qed.

Lemma StronglySorted_NoDup_strict (l : list (list N)) :
  StronglySorted str_le l → NoDup l → StronglySorted str_lt l.
Proof.
  induction 1 as [| x l Hl IH Hx]; intros Hnd; [constructor |].
  apply NoDup_cons in Hnd as [Hx' Hnd]. constructor; [by apply IH |].
  apply Forall_forall. intros y Hy. split.
  - by eapply Forall_forall in Hx.
  - intros ->. done.
Qed.

(** ** The matcher *)

Section MatcherFacts.
Context {casing : PyCasing}.
Variable partial_ratio : list N → list N → Q.

Lemma scan_row_spec inv found r x :
  x ∈ scan_row partial_ratio inv found r ↔
  x ∈ found ∨ (row_hits partial_ratio inv r ∧ x = generic r).
Proof.
  unfold scan_row, row_hits.
  destruct (is_banned r); simpl; [| intuition done].
  destruct (normalize (generic r)) as [| c g] eqn:Hg; [intuition done |].
  destruct (contains (c :: g) inv); [set_solver |].
  destruct (Qle_bool _ _); [set_solver | intuition done].
Qed.

Lemma scan_rows_spec inv rows : ∀ found x,
  x ∈ foldl (scan_row partial_ratio inv) found rows ↔
  x ∈ found ∨ ∃ r, r ∈ rows ∧ row_hits partial_ratio inv r ∧ x = generic r.
Proof.
  induction rows as [| r rows IH]; intros found x; simpl.
  - set_solver.
  - rewrite IH, scan_row_spec. set_solver.
Qed.

Lemma scan_row_not_banned inv found r :
  is_banned r = false → scan_row partial_ratio inv found r = found.
Proof. unfold scan_row. by intros ->. Qed.

Lemma find_banned_spec texts rows x :
  x ∈ find_banned_drugs_in_invoice partial_ratio texts rows ↔
  (∃ r, r ∈ rows ∧ row_hits partial_ratio (invoice_text_of texts) r ∧ x = generic r) ∨
  (contains (lit "nimesulide") (invoice_text_of texts) = true ∧
   x = str_capitalize (lit "nimesulide")).
Proof.
  unfold find_banned_drugs_in_invoice, BANNED_KEYWORDS. simpl.
  rewrite sorted_elem_of. unfold scan_keyword.
  destruct (contains (lit "nimesulide") (invoice_text_of texts)).
  - rewrite elem_of_union, elem_of_singleton, scan_rows_spec. set_solver.
  - rewrite scan_rows_spec. set_solver.
Qed.

Lemma capitalize_nimesulide : str_capitalize (lit "nimesulide") = lit "Nimesulide".
Proof.
  rewrite str_capitalize_ascii; [done |].
  apply Forall_forall. intros c Hc. unfold is_ascii.
  repeat (apply elem_of_cons in Hc as [-> | Hc]; [done |]). by apply elem_of_nil in Hc.
Qed.

Lemma normalize_Nimesulide : normalize (lit "Nimesulide") = lit "nimesulide".
Proof.
  unfold normalize. rewrite str_lower_ascii; [done |].
  apply Forall_forall. intros c Hc. unfold is_ascii.
  repeat (apply elem_of_cons in Hc as [-> | Hc]; [done |]). by apply elem_of_nil in Hc.
Qed.
End MatcherFacts.

Section MatcherClaims.
Context {casing : PyCasing}.
Variable partial_ratio : list N → list N → Q.

(** C1: a banned row whose normalised generic name is not empty and occurs as
    a contiguous substring of the normalised invoice text has its original
    generic string in the result, whatever the fuzzy score is. *)
Theorem exact_match_flagged (ocr_texts : list (list N)) (rows : list DatasetRow)
    (r : DatasetRow) :
  r ∈ rows → is_banned r = true → normalize (generic r) ≠ [] →
  substring (normalize (generic r)) (invoice_text_of ocr_texts) →
  generic r ∈ find_banned_drugs_in_invoice partial_ratio ocr_texts rows.
Proof.
  intros Hr Hb Hg Hsub. apply find_banned_spec. left. exists r.
  split_and!; [done | | done]. unfold row_hits. split_and!; [done | done |].
  left. by apply contains_spec.
Qed.

(** Off the exact path, a banned row is flagged exactly when its score
    reaches the threshold. *)
Lemma fuzzy_path_iff (ocr_texts : list (list N)) (rows : list DatasetRow)
    (r : DatasetRow) :
  r ∈ rows → is_banned r = true → normalize (generic r) ≠ [] →
  ¬ substring (normalize (generic r)) (invoice_text_of ocr_texts) →
  generic r ∈ find_banned_drugs_in_invoice partial_ratio ocr_texts rows ↔
  Qle_bool (inject_Z FUZZY_THRESHOLD)
    (partial_ratio (normalize (generic r)) (invoice_text_of ocr_texts)) = true.
Proof.
  intros Hr Hb Hg Hsub. rewrite find_banned_spec. split.
  - intros [(r' & _ & (_ & _ & Hhit) & Heq) | [Hkw Heq]].
    + rewrite <- Heq in Hhit. destruct Hhit as [Hc | Hq]; [| done].
      by apply contains_spec in Hc.
    + rewrite capitalize_nimesulide in Heq. exfalso. apply Hsub.
      rewrite Heq, normalize_Nimesulide. by apply contains_spec.
  - intros Hq. left. exists r. unfold row_hits. split_and!; auto.
Qed.

(** C2: for a banned row with a non-empty normalised generic name that is
    not a substring of the normalised invoice text, a score of exactly 85
    puts the generic name in the result and a score of 84 keeps it out. *)
Theorem threshold_inclusive (ocr_texts : list (list N)) (rows : list DatasetRow)
    (r : DatasetRow) :
  r ∈ rows → is_banned r = true → normalize (generic r) ≠ [] →
  ¬ substring (normalize (generic r)) (invoice_text_of ocr_texts) →
  let score := partial_ratio (normalize (generic r)) (invoice_text_of ocr_texts) in
  (Qeq score (inject_Z 85) →
     generic r ∈ find_banned_drugs_in_invoice partial_ratio ocr_texts rows) ∧
  (Qeq score (inject_Z 84) →
     generic r ∉ find_banned_drugs_in_invoice partial_ratio ocr_texts rows).
Proof.
  intros Hr Hb Hg Hsub score. split; intros Hs.
  - apply fuzzy_path_iff; [done .. |]. fold score.
    apply Qle_bool_iff. rewrite Hs. apply Qle_refl.
  - rewrite fuzzy_path_iff by done. fold score.
    rewrite Qle_bool_iff, Hs. by compute.
Qed.

(** C3: a row that is not banned adds nothing: the result is the same with
    the row as without it, whatever the invoice text holds. *)
Theorem non_banned_row_inert (ocr_texts : list (list N))
    (before after : list DatasetRow) (r : DatasetRow) :
  is_banned r = false →
  find_banned_drugs_in_invoice partial_ratio ocr_texts (before ++ r :: after) =
  find_banned_drugs_in_invoice partial_ratio ocr_texts (before ++ after).
Proof.
  intros Hb. unfold find_banned_drugs_in_invoice.
  rewrite !foldl_app. simpl. by rewrite scan_row_not_banned.
Qed.

(** C4: when the normalised invoice text contains "nimesulide", the matcher
    on the empty dataset returns exactly ["Nimesulide"], and "Nimesulide" is
    in the result for every dataset. *)
Theorem safety_net_independent (ocr_texts : list (list N)) :
  substring (lit "nimesulide") (invoice_text_of ocr_texts) →
  find_banned_drugs_in_invoice partial_ratio ocr_texts [] = [lit "Nimesulide"] ∧
  ∀ rows, lit "Nimesulide" ∈ find_banned_drugs_in_invoice partial_ratio ocr_texts rows.
Proof.
  intros Hsub%contains_spec. split.
  - unfold find_banned_drugs_in_invoice, BANNED_KEYWORDS, scan_keyword. simpl.
    rewrite Hsub, capitalize_nimesulide, (right_id_L ∅ (∪)).
    unfold sorted. by rewrite elements_singleton.
  - intros rows. apply find_banned_spec. right.
    by rewrite capitalize_nimesulide.
Qed.

(** C5: the returned sequence is sorted in the lexicographic order of strings
    and holds no string twice. *)
Theorem result_sorted_nodup (ocr_texts : list (list N)) (rows : list DatasetRow) :
  StronglySorted str_le (find_banned_drugs_in_invoice partial_ratio ocr_texts rows) ∧
  NoDup (find_banned_drugs_in_invoice partial_ratio ocr_texts rows) ∧
  StronglySorted str_lt (find_banned_drugs_in_invoice partial_ratio ocr_texts rows).
Proof.
  unfold find_banned_drugs_in_invoice.
  split_and!; [| | apply StronglySorted_NoDup_strict];
    auto using sorted_StronglySorted, sorted_NoDup.
Qed.
End MatcherClaims.

(** ** Dataset shaping and loading *)

Global Instance is_ascii_dec c : Decision (is_ascii c).
Proof. unfold is_ascii. apply _. Defined.

Section DatasetFacts.
Context {casing : PyCasing}.

Lemma str_lower_literal s :
  bool_decide (Forall is_ascii s) = true → str_lower s = ascii_lower <$> s.
Proof. intros Hs. apply str_lower_ascii. by apply bool_decide_eq_true in Hs. Qed.

Lemma parse_is_banned_spec (r : raw_record) :
  parse_is_banned r = true ↔
  ∃ v, r !! lit "is_banned" = Some (CStr v) ∧ str_lower v = lit "true".
Proof.
  unfold parse_is_banned, get_or_empty. rewrite bool_decide_eq_true.
  destruct (r !! lit "is_banned") as [[v |] |]; simpl.
  - split; [eauto | by intros (? & [= <-] & ?)].
  - rewrite str_lower_literal by done. split; [done | by intros (? & ? & ?)].
  - rewrite str_lower_literal by done. split; [done | by intros (? & ? & ?)].
Qed.

Lemma shape_row_is_banned (r : raw_record) (row : DatasetRow) :
  shape_row r = Ok row → is_banned row = parse_is_banned r.
Proof.
  unfold shape_row.
  destruct (strip_method (get_or_empty r (lit "brand"))); [| done].
  destruct (strip_method (get_or_empty r (lit "generic"))); [| done].
  destruct (strip_method (get_or_empty r (lit "batch"))); [| done].
  by intros [= <-].
Qed.

(** A row whose three text columns are each a string or absent is shaped
    without error: trimmed fields, the empty string for an absent column. *)
Lemma shape_row_ok (r : raw_record) :
  r !! lit "brand" ≠ Some CNone → r !! lit "generic" ≠ Some CNone →
  r !! lit "batch" ≠ Some CNone →
  shape_row r = Ok {|
    brand := strip (str_of (get_or_empty r (lit "brand")));
    generic := strip (str_of (get_or_empty r (lit "generic")));
    is_banned := parse_is_banned r;
    batch := strip (str_of (get_or_empty r (lit "batch"))) |}.
Proof.
  unfold shape_row, get_or_empty. intros Hb Hg Ht.
  destruct (r !! lit "brand") as [[b |] |]; [| done |];
    (destruct (r !! lit "generic") as [[g |] |]; [| done |]);
    (destruct (r !! lit "batch") as [[t |] |]; [| done |]); reflexivity.
Qed.

(** C8: in a shaped row, [is_banned] is true exactly when the raw value is a
    string that lowercases to "true"; an absent column, a value left out of
    the line, "false", "1" and the empty string all give false, and for an
    ASCII value the test is equality with "true" up to the case of letters. *)
Theorem is_banned_strict (r : raw_record) (row : DatasetRow) :
  shape_row r = Ok row →
  (is_banned row = true ↔
     ∃ v, r !! lit "is_banned" = Some (CStr v) ∧ str_lower v = lit "true") ∧
  (r !! lit "is_banned" = None → is_banned row = false) ∧
  (r !! lit "is_banned" = Some CNone → is_banned row = false) ∧
  (∀ v, r !! lit "is_banned" = Some (CStr v) →
     v ∈ [lit "false"; lit "1"; lit ""] → is_banned row = false) ∧
  (∀ v, r !! lit "is_banned" = Some (CStr v) → Forall is_ascii v →
     (is_banned row = true ↔ ascii_lower <$> v = lit "true")).
Proof.
  intros Hrow%shape_row_is_banned. rewrite Hrow.
  pose proof (parse_is_banned_spec r) as Hspec.
  split_and!; [done | | | |].
  - intros Hk. apply not_true_is_false. rewrite Hspec, Hk. by intros (? & ? & ?).
  - intros Hk. apply not_true_is_false. rewrite Hspec, Hk. by intros (? & ? & ?).
  - intros v Hk Hv. apply not_true_is_false. rewrite Hspec, Hk.
    intros (v' & [= <-] & Hl).
    repeat (apply elem_of_cons in Hv as [-> | Hv];
            [by rewrite str_lower_literal in Hl |]).
    by apply elem_of_nil in Hv.
  - intros v Hk Hv. rewrite Hspec, Hk, <- (str_lower_ascii v Hv). split.
    + by intros (v' & [= <-] & Hl).
    + eauto.
Qed.
End DatasetFacts.

Section LoaderFacts.
Context {casing : PyCasing}.

(** C9: shaping the row of a line that is shorter than the header raises
    [AttributeError]: the value of [batch] is [None], and [None] has no
    [strip]. *)
Theorem short_row_raises : shape_row short_row = Raise AttributeError.
Proof. reflexivity. Qed.

Lemma skipped_true (fs : gmap (list N) source) (p : option (list N)) :
  p = None ∨ p = Some [] ∨ (∃ name, p = Some name ∧ fs !! name = None) →
  skipped fs p = true.
Proof.
  intros [-> | [-> | (name & -> & Hname)]]; [done | done |].
  destruct name; [done |]. simpl. by apply bool_decide_eq_true.
Qed.

Lemma load_into_skip (fs : gmap (list N) source) (p : option (list N))
    (before after : list (option (list N))) :
  skipped fs p = true →
  ∀ rows, load_into fs rows (before ++ p :: after) = load_into fs rows (before ++ after).
Proof.
  intros Hp. induction before as [| q before IH]; intros rows; simpl.
  - by rewrite Hp.
  - destruct (skipped fs q); [apply IH |].
    destruct (open_read fs (default [] q)) as [reader | e]; [| done]. simpl.
    destruct (read_rows rows reader) as [rows' | e]; [| done]. simpl. apply IH.
Qed.

Lemma append_rows_present (records : list raw_record) :
  Forall text_cells_present records →
  ∀ rows, ∃ rows', append_rows rows records = Ok rows'.
Proof.
  induction 1 as [| r records (Hb & Hg & Ht) _ IH]; intros rows; simpl; [eauto |].
  rewrite (shape_row_ok r Hb Hg Ht). simpl. apply IH.
Qed.

Lemma load_into_fails (fs : gmap (list N) source) (name : list N) (e : exn)
    (after : list (option (list N))) :
  name ≠ [] → source_fails fs name e →
  ∀ before rows0 rows,
    load_into fs rows0 before = Ok rows →
    load_into fs rows0 (before ++ Some name :: after) = Raise e.
Proof.
  intros Hname Hfail.
  assert (skipped fs (Some name) = false) as Hsk.
  { destruct name; [done |]. simpl. apply bool_decide_eq_false.
    destruct Hfail as [-> | (? & -> & _)]; done. }
  induction before as [| q before IH]; intros rows0 rows.
  - intros _. cbn [app load_into]. rewrite Hsk. unfold open_read, read_rows. simpl.
    destruct Hfail as [-> | (records & -> & Hrec)]; [done |]. simpl.
    destruct (append_rows_present records Hrec rows0) as [rows' ->]. done.
  - simpl. destruct (skipped fs q); [apply IH |].
    destruct (open_read fs (default [] q)) as [reader | e']; [| done]. simpl.
    destruct (read_rows rows0 reader) as [rows' | e']; [| done]. simpl. apply IH.
Qed.

(** C10, amended: a source whose path is [None] or empty, or whose file does
    not exist, is passed over: the loader does on the whole list what it
    does on the list without that source, and when no source is left it
    returns no rows and no error.  A source that exists but cannot be opened,
    or whose reading breaks off, is not passed over: once the sources before
    it have loaded, its error leaves the loader. *)
Theorem missing_source_skipped (fs : gmap (list N) source)
    (before after : list (option (list N))) :
  (∀ p : option (list N),
     p = None ∨ p = Some [] ∨ (∃ name, p = Some name ∧ fs !! name = None) →
     load_dataset_csv fs (before ++ p :: after) = load_dataset_csv fs (before ++ after) ∧
     load_dataset_csv fs [p] = Ok []) ∧
  (∀ (name : list N) (e : exn) (rows : list DatasetRow),
     name ≠ [] → source_fails fs name e →
     load_dataset_csv fs before = Ok rows →
     load_dataset_csv fs (before ++ Some name :: after) = Raise e).
Proof.
  unfold load_dataset_csv. split.
  - intros p Hp%skipped_true. split.
    + by apply load_into_skip.
    + simpl. by rewrite Hp.
  - intros name e rows Hname Hfail Hbefore. by eapply load_into_fails.
Qed.
End LoaderFacts.

(** ** The claims at concrete inputs *)

Example normalize_sample :
  normalize (casing := basic_casing) (lit "  Item:  CEFIXIME-200mg tablet ")
  = lit "item cefixime 200mg tablet".
Proof. reflexivity. Qed.

Example normalize_blank : normalize (casing := basic_casing) (lit " -- ! ") = [].
Proof. reflexivity. Qed.

(** U+00A0 is whitespace and U+00E9 is not a letter of [a-z]; both leave a
    space behind, and the Kelvin sign lowercases to [k]. *)
Example normalize_non_ascii :
  normalize (casing := basic_casing) [97; 160; 233; 98; 8490] = lit "a bk".
Proof. reflexivity. Qed.

Example matcher_sample :
  find_banned_drugs_in_invoice (casing := basic_casing) (score_of 0) sample_invoice
    [paracetamol_row; cefixime_row]
  = [lit "Cefixime"; lit "Nimesulide"].
Proof. vm_compute. reflexivity. Qed.

Example load_readable :
  load_dataset_csv (casing := basic_casing) sample_fs
    [Some (lit "absent.csv"); None; Some (lit "train.csv")]
  = Ok [full_row_shaped].
Proof. vm_compute. reflexivity. Qed.

Lemma exact_match_flagged_witness :
  is_banned cefixime_row = true ∧
  lit "Cefixime" ∈
    find_banned_drugs_in_invoice (casing := basic_casing) (score_of 0) sample_invoice
      [paracetamol_row; cefixime_row].
Proof.
  split; [reflexivity |].
  apply (exact_match_flagged (casing := basic_casing) (score_of 0) sample_invoice
           [paracetamol_row; cefixime_row] cefixime_row).
  - right. left.
  - reflexivity.
  - vm_compute. discriminate.
  - exists (lit "item "), (lit " 200mg tablet paracetamol 500 nimesulide 100").
    vm_compute. reflexivity.
Defined.

Lemma threshold_inclusive_witness :
  lit "Cefixime" ∈
    find_banned_drugs_in_invoice (casing := basic_casing) (score_of 85) noisy_invoice
      [cefixime_row] ∧
  lit "Cefixime" ∉
    find_banned_drugs_in_invoice (casing := basic_casing) (score_of 84) noisy_invoice
      [cefixime_row].
Proof.
  assert (¬ substring (normalize (casing := basic_casing) (generic cefixime_row))
              (invoice_text_of (casing := basic_casing) noisy_invoice)) as Hno.
  { intros Hs. apply contains_spec in Hs. vm_compute in Hs. discriminate. }
  split.
  - apply (threshold_inclusive (casing := basic_casing) (score_of 85) noisy_invoice
             [cefixime_row] cefixime_row); [left | reflexivity | | exact Hno | reflexivity].
    vm_compute. discriminate.
  - apply (threshold_inclusive (casing := basic_casing) (score_of 84) noisy_invoice
             [cefixime_row] cefixime_row); [left | reflexivity | | exact Hno | reflexivity].
    vm_compute. discriminate.
Defined.

Lemma non_banned_row_inert_witness :
  is_banned paracetamol_row = false ∧
  find_banned_drugs_in_invoice (casing := basic_casing) (score_of 100) sample_invoice
    ([cefixime_row] ++ paracetamol_row :: [])
  = find_banned_drugs_in_invoice (casing := basic_casing) (score_of 100) sample_invoice
    ([cefixime_row] ++ []).
Proof.
  split; [reflexivity |].
  apply (non_banned_row_inert (casing := basic_casing) (score_of 100) sample_invoice
           [cefixime_row] [] paracetamol_row).
  reflexivity.
Defined.

Lemma safety_net_independent_witness :
  find_banned_drugs_in_invoice (casing := basic_casing) (score_of 0) sample_invoice []
  = [lit "Nimesulide"] ∧
  ∀ rows, lit "Nimesulide" ∈
    find_banned_drugs_in_invoice (casing := basic_casing) (score_of 0) sample_invoice rows.
Proof.
  apply (safety_net_independent (casing := basic_casing) (score_of 0) sample_invoice).
  exists (lit "item cefixime 200mg tablet paracetamol 500 "), (lit " 100").
  vm_compute. reflexivity.
Defined.

Lemma is_banned_strict_witness :
  shape_row (casing := basic_casing) full_row = Ok full_row_shaped ∧
  (is_banned full_row_shaped = true ↔
     ∃ v, full_row !! lit "is_banned" = Some (CStr v) ∧ basic_lower v = lit "true").
Proof.
  split; [vm_compute; reflexivity |].
  apply (is_banned_strict (casing := basic_casing) full_row full_row_shaped).
  vm_compute. reflexivity.
Defined.

Lemma missing_source_skipped_witness :
  load_dataset_csv (casing := basic_casing) sample_fs
    ([Some (lit "train.csv")] ++ Some (lit "absent.csv") :: [])
  = load_dataset_csv (casing := basic_casing) sample_fs ([Some (lit "train.csv")] ++ []) ∧
  load_dataset_csv (casing := basic_casing) sample_fs
    ([Some (lit "train.csv")] ++ Some (lit "locked.csv") :: [])
  = Raise OSError ∧
  load_dataset_csv (casing := basic_casing) sample_fs
    ([Some (lit "train.csv")] ++ Some (lit "torn.csv") :: [])
  = Raise UnicodeDecodeError.
Proof.
  destruct (missing_source_skipped (casing := basic_casing) sample_fs
              [Some (lit "train.csv")] []) as [Hskip Hfail].
  split_and!.
  - apply (Hskip (Some (lit "absent.csv"))).
    right. right. exists (lit "absent.csv"). split; [reflexivity | vm_compute; reflexivity].
  - apply (Hfail (lit "locked.csv") OSError [full_row_shaped]).
    + discriminate.
    + left. vm_compute. reflexivity.
    + vm_compute. reflexivity.
  - apply (Hfail (lit "torn.csv") UnicodeDecodeError [full_row_shaped]).
    + discriminate.
    + right. exists [full_row]. split; [vm_compute; reflexivity |].
      constructor; [| constructor]. vm_compute. repeat split; discriminate.
    + vm_compute. reflexivity.
Defined.

(** C10, as stated, fails: a source that exists but cannot be opened is not
    passed over; the error leaves the loader, and the rows already read from
    the readable source are lost with it. *)
Lemma unreadable_source_raises :
  sample_fs !! lit "locked.csv" = Some (Unreadable OSError) ∧
  load_dataset_csv (casing := basic_casing) sample_fs
    [Some (lit "train.csv"); Some (lit "locked.csv")]
  = Raise OSError.
Proof. split; vm_compute; reflexivity. Qed.

(** * Further properties of the code *)

(** ** The matcher as a whole *)

Section MatcherLaws.
Context {casing : PyCasing}.
Variable partial_ratio : list N → list N → Q.

Lemma found_banned_spec (inv : list N) (rows : list DatasetRow) (x : list N) :
  x ∈ foldl (scan_keyword inv) (foldl (scan_row partial_ratio inv) ∅ rows)
        BANNED_KEYWORDS ↔
  (∃ r, r ∈ rows ∧ row_hits partial_ratio inv r ∧ x = generic r) ∨
  (contains (lit "nimesulide") inv = true ∧ x = str_capitalize (lit "nimesulide")).
Proof.
  unfold BANNED_KEYWORDS, scan_keyword. simpl.
  destruct (contains (lit "nimesulide") inv).
  - rewrite elem_of_union, elem_of_singleton, scan_rows_spec. set_solver.
  - rewrite scan_rows_spec. set_solver.
Qed.

(** X1: the result holds exactly the generic names of the banned rows that
    match, by substring or by score, and "Nimesulide" when the keyword is in
    the text. *)
Theorem find_banned_characterised (ocr_texts : list (list N))
    (rows : list DatasetRow) (x : list N) :
  x ∈ find_banned_drugs_in_invoice partial_ratio ocr_texts rows ↔
  (∃ r, r ∈ rows ∧ is_banned r = true ∧ normalize (generic r) ≠ [] ∧
        (substring (normalize (generic r)) (invoice_text_of ocr_texts) ∨
         Qle (inject_Z 85)
           (partial_ratio (normalize (generic r)) (invoice_text_of ocr_texts))) ∧
        x = generic r) ∨
  (substring (lit "nimesulide") (invoice_text_of ocr_texts) ∧ x = lit "Nimesulide").
Proof.
  rewrite find_banned_spec, capitalize_nimesulide, contains_spec.
  unfold row_hits. setoid_rewrite contains_spec. setoid_rewrite Qle_bool_iff.
  unfold FUZZY_THRESHOLD. split.
  - intros [(r & Hr & (Hb & Hg & Hm) & Hx) | Hk]; [left; exists r | right]; auto.
  - intros [(r & Hr & Hb & Hg & Hm & Hx) | Hk]; [left; exists r | right]; auto.
Qed.

(** X2: the result depends on the rows as a set: their order and repetitions do
    not matter. *)
Theorem result_depends_on_row_set (ocr_texts : list (list N))
    (rows1 rows2 : list DatasetRow) :
  (∀ r, r ∈ rows1 ↔ r ∈ rows2) →
  find_banned_drugs_in_invoice partial_ratio ocr_texts rows1 =
  find_banned_drugs_in_invoice partial_ratio ocr_texts rows2.
Proof.
  intros Hrows. unfold find_banned_drugs_in_invoice. f_equal.
  apply set_eq. intros x. rewrite !found_banned_spec.
  by setoid_rewrite Hrows.
Qed.

(** X3: more rows never take a name out of the result. *)
Theorem result_monotone_in_rows (ocr_texts : list (list N))
    (rows1 rows2 : list DatasetRow) (x : list N) :
  (∀ r, r ∈ rows1 → r ∈ rows2) →
  x ∈ find_banned_drugs_in_invoice partial_ratio ocr_texts rows1 →
  x ∈ find_banned_drugs_in_invoice partial_ratio ocr_texts rows2.
Proof.
  intros Hrows. rewrite !find_banned_spec.
  intros [(r & Hr & Hhit) | Hk]; [left; exists r | right]; auto.
Qed.

Lemma invoice_text_of_normalized (t : list N) :
  clean t → invoice_text_of [t] = t.
Proof. intros Ht. unfold invoice_text_of. simpl. by apply normalize_fixes_clean. Qed.

(** X4: handing the matcher the already normalised text as its only page gives
    the same result as handing it the pages. *)
Theorem prenormalised_text_same_result (ocr_texts : list (list N))
    (rows : list DatasetRow) :
  find_banned_drugs_in_invoice partial_ratio [invoice_text_of ocr_texts] rows =
  find_banned_drugs_in_invoice partial_ratio ocr_texts rows.
Proof.
  unfold find_banned_drugs_in_invoice.
  rewrite invoice_text_of_normalized; [done |].
  unfold invoice_text_of. apply normalize_clean.
Qed.
End MatcherLaws.

(** ** What survives normalisation *)

Lemma alnum_not_space c : alnum c = true → isspace c = false.
Proof.
  unfold alnum. intros [Hc | Hc]%orb_true_iff;
    auto using is_az_not_space, is_09_not_space.
Qed.

Lemma alnum_norm_char c : alnum c = true → norm_char c.
Proof. unfold alnum, norm_char. intros [Hc | Hc]%orb_true_iff; auto. Qed.

Lemma substring_refl s : substring s s.
Proof. exists [], []. by rewrite app_nil_r. Qed.

Lemma substring_trans a b c : substring a b → substring b c → substring a c.
Proof.
  intros (p1 & q1 & ->) (p2 & q2 & ->). exists (p2 ++ p1), (q1 ++ q2).
  by rewrite <- !app_assoc.
Qed.

Lemma substring_fmap (f : N → N) w s : substring w s → substring (f <$> w) (f <$> s).
Proof. intros (p & q & ->). exists (f <$> p), (f <$> q). by rewrite !fmap_app. Qed.

Lemma substring_reverse w s : substring w s → substring (reverse w) (reverse s).
Proof.
  intros (p & q & ->). exists (reverse q), (reverse p).
  by rewrite !reverse_app, <- app_assoc.
Qed.

Lemma sub_other_word w s :
  Forall (λ c, alnum c = true) w → substring w s → substring w (sub_other s).
Proof.
  intros Hw Hs. rewrite <- (sub_other_id w).
  - by apply substring_fmap.
  - eapply Forall_impl; [done |]. apply alnum_norm_char.
Qed.

Lemma collapse_ws_app_char pre c rest : ∀ b,
  isspace c = false →
  collapse_ws b (pre ++ c :: rest) = collapse_ws b pre ++ c :: collapse_ws false rest.
Proof.
  induction pre as [| d pre IH]; intros b Hc; simpl.
  - by rewrite Hc.
  - destruct (isspace d); [destruct b |]; simpl; by rewrite IH.
Qed.

Lemma collapse_ws_word w post :
  Forall (λ c, isspace c = false) w →
  collapse_ws false (w ++ post) = w ++ collapse_ws false post.
Proof.
  induction 1 as [| c w Hc _ IH]; [done |]. simpl. by rewrite Hc, IH.
Qed.

Lemma collapse_ws_keeps_word w s b :
  w ≠ [] → Forall (λ c, isspace c = false) w →
  substring w s → substring w (collapse_ws b s).
Proof.
  intros Hne Hw (p & q & ->). destruct w as [| c w]; [done |].
  apply Forall_cons in Hw as [Hc Hw]. simpl.
  rewrite collapse_ws_app_char by done. rewrite collapse_ws_word by done.
  by exists (collapse_ws b p), (collapse_ws false q).
Qed.

Lemma lstrip_keeps_word w s :
  w ≠ [] → Forall (λ c, isspace c = false) w →
  substring w s → substring w (lstrip s).
Proof.
  intros Hne Hw. destruct w as [| c w]; [done |].
  apply Forall_cons in Hw as [Hc Hw].
  induction s as [| d r IH]; intros (p & q & Hs); [by destruct p |]. simpl.
  destruct (isspace d) eqn:Hd; [| by exists p, q].
  destruct p as [| e p]; simplify_eq/=; [congruence |].
  apply IH. by exists p, q.
Qed.

Lemma lstrip_app a b :
  lstrip (a ++ b) = match lstrip a with [] => lstrip b | l => l ++ b end.
Proof.
  induction a as [| c a IH]; [done |]. simpl. by destruct (isspace c).
Qed.

Lemma rstrip_reverse s : rstrip s = reverse (lstrip (reverse s)).
Proof.
  induction s as [| c r IH]; [done |]. simpl.
  rewrite reverse_cons, lstrip_app, IH.
  destruct (lstrip (reverse r)) as [| d l] eqn:Hl.
  - rewrite reverse_nil. simpl. destruct (isspace c); reflexivity.
  - rewrite reverse_snoc.
    destruct (reverse (d :: l)) eqn:Hrev; [| done].
    apply (f_equal reverse) in Hrev. by rewrite reverse_involutive in Hrev.
Qed.

Lemma rstrip_keeps_word w s :
  w ≠ [] → Forall (λ c, isspace c = false) w →
  substring w s → substring w (rstrip s).
Proof.
  intros Hne Hw Hs. rewrite rstrip_reverse, <- (reverse_involutive w).
  apply substring_reverse, lstrip_keeps_word.
  - intros Hr. apply Hne. by rewrite <- (reverse_involutive w), Hr.
  - by apply Forall_reverse.
  - by apply substring_reverse.
Qed.

Lemma word_survives w t :
  w ≠ [] → Forall (λ c, alnum c = true) w →
  substring w t → substring w (strip (collapse_ws false (sub_other t))).
Proof.
  intros Hne Hw Ht.
  assert (Forall (λ c, isspace c = false) w) as Hns.
  { eapply Forall_impl; [done |]. apply alnum_not_space. }
  unfold strip. apply rstrip_keeps_word, lstrip_keeps_word,
    collapse_ws_keeps_word, sub_other_word; done.
Qed.

Lemma lstrip_spaces s : Forall (λ c, isspace c = true) s → lstrip s = [].
Proof. induction 1 as [| c s Hc _ IH]; [done |]. simpl. by rewrite Hc. Qed.

Lemma collapse_ws_spaces s : ∀ b,
  Forall (λ c, isspace c = true) s → Forall (λ c, isspace c = true) (collapse_ws b s).
Proof.
  induction s as [| c s IH]; intros b Hs; [done |].
  apply Forall_cons in Hs as [Hc Hs]. simpl. rewrite Hc.
  destruct b; [by apply IH |]. constructor; [done | by apply IH].
Qed.

Lemma sub_other_spaces s :
  Forall (λ c, alnum c = false) s → Forall (λ c, isspace c = true) (sub_other s).
Proof.
  intros Hs. unfold sub_other. apply Forall_fmap. eapply Forall_impl; [done |].
  intros c Hc. simpl. unfold alnum in Hc. rewrite Hc. simpl.
  by destruct (isspace c) eqn:Hsp.
Qed.

Section NormalizeLaws.
Context {casing : PyCasing}.

Lemma normalize_empty_spec (s : list N) :
  normalize s = [] ↔ Forall (λ c, alnum c = false) (str_lower s).
Proof.
  unfold normalize. split.
  - intros Hn. apply Forall_forall. intros c Hc.
    apply not_true_is_false. intros Ha.
    apply list_elem_of_split in Hc as (p & q & Hc).
    assert (substring [c] (str_lower s)) as Hsub by (by exists p, q).
    apply word_survives in Hsub; [| done | by constructor].
    rewrite Hn in Hsub. destruct Hsub as (p' & q' & Hnil). by destruct p'.
  - intros Hs. unfold strip.
    by rewrite lstrip_spaces by (by apply collapse_ws_spaces, sub_other_spaces).
Qed.

Lemma scan_row_empty_form (partial_ratio : list N → list N → Q) (inv : list N)
    (found : gset (list N)) (r : DatasetRow) :
  normalize (generic r) = [] → scan_row partial_ratio inv found r = found.
Proof. intros Hn. unfold scan_row. rewrite Hn. by destruct (is_banned r). Qed.

(** X6: [normalize] returns the empty string exactly when the lowercased text
    holds no letter of [a-z] and no digit; a row with such a generic name is
    inert in the matcher: the result with the row is the result without it,
    banned or not, whatever the text and the score. *)
Theorem normalize_empty_iff (s : list N) :
  (normalize s = [] ↔ Forall (λ c, alnum c = false) (str_lower s)) ∧
  (∀ (partial_ratio : list N → list N → Q) (ocr_texts : list (list N))
     (before after : list DatasetRow) (r : DatasetRow),
     generic r = s → Forall (λ c, alnum c = false) (str_lower s) →
     find_banned_drugs_in_invoice partial_ratio ocr_texts (before ++ r :: after) =
     find_banned_drugs_in_invoice partial_ratio ocr_texts (before ++ after)).
Proof.
  split; [apply normalize_empty_spec |].
  intros partial_ratio ocr_texts before after r <- Hs%normalize_empty_spec.
  unfold find_banned_drugs_in_invoice. rewrite !foldl_app. simpl.
  by rewrite scan_row_empty_form.
Qed.

Lemma normalize_ascii (s : list N) :
  Forall is_ascii s →
  normalize s = strip (collapse_ws false (sub_other (ascii_lower <$> s))).
Proof. intros Hs. unfold normalize. by rewrite str_lower_ascii. Qed.

Lemma ascii_occurrence_normalized (u t : list N) :
  Forall is_ascii t → u ≠ [] → Forall (λ c, alnum (ascii_lower c) = true) u →
  substring u t → substring (ascii_lower <$> u) (normalize t).
Proof.
  intros Ht Hne Hu Hsub. rewrite normalize_ascii by done.
  apply word_survives.
  - by destruct u.
  - by apply Forall_fmap.
  - by apply substring_fmap.
Qed.

Lemma normalize_ascii_word (g : list N) :
  Forall (λ c, alnum (ascii_lower c) = true) g → normalize g = ascii_lower <$> g.
Proof.
  intros Hg.
  assert (Forall is_ascii g) as Hascii.
  { eapply Forall_impl; [exact Hg |].
    intros c Hc. simpl in Hc. unfold alnum, ascii_lower in Hc.
    destruct (is_AZ c) eqn:Hu; char_arith; lia. }
  assert (Forall (λ c, alnum c = true) (ascii_lower <$> g)) as Hg'
    by (by apply Forall_fmap).
  assert (Forall norm_char (ascii_lower <$> g)) as Hn.
  { eapply Forall_impl; [exact Hg' |]. apply alnum_norm_char. }
  assert (Forall (λ c, isspace c = false) (ascii_lower <$> g)) as Hns.
  { eapply Forall_impl; [exact Hg' |]. apply alnum_not_space. }
  rewrite normalize_ascii, sub_other_id by done.
  rewrite <- (app_nil_r (ascii_lower <$> g)) at 1.
  rewrite collapse_ws_word, app_nil_r by done.
  unfold strip. rewrite lstrip_id, rstrip_id; [done | |].
  - intros c Hc. apply last_Some_elem_of in Hc.
    by eapply Forall_forall in Hns.
  - intros c Hc. apply head_Some_elem_of in Hc.
    by eapply Forall_forall in Hns.
Qed.
End NormalizeLaws.

(** ** Occurrences in ASCII pages *)

Lemma join_ascii (sep : list N) (parts : list (list N)) :
  Forall is_ascii sep → Forall (Forall is_ascii) parts →
  Forall is_ascii (join sep parts).
Proof.
  intros Hsep. induction 1 as [| p rest Hp Hrest IH]; [done |].
  simpl. destruct rest; [done |]. rewrite !Forall_app. auto.
Qed.

Lemma substring_join (sep p : list N) (parts : list (list N)) :
  p ∈ parts → substring p (join sep parts).
Proof.
  induction parts as [| q rest IH]; intros Hp; [by apply elem_of_nil in Hp |].
  apply elem_of_cons in Hp as [-> | Hp]; simpl.
  - destruct rest; [apply substring_refl |]. by exists [], (sep ++ join sep (l :: rest)).
  - destruct rest as [| q' rest]; [by apply elem_of_nil in Hp |].
    destruct (IH Hp) as (a & b & Hab). exists (q ++ sep ++ a), b.
    rewrite Hab. by rewrite <- !app_assoc.
Qed.

Section Detection.
Context {casing : PyCasing}.
Variable partial_ratio : list N → list N → Q.

Lemma ascii_occurrence_in_invoice (ocr_texts : list (list N)) (p u : list N) :
  Forall (Forall is_ascii) ocr_texts → p ∈ ocr_texts → substring u p →
  u ≠ [] → Forall (λ c, alnum (ascii_lower c) = true) u →
  substring (ascii_lower <$> u) (invoice_text_of ocr_texts).
Proof.
  intros Hascii Hp Hu Hne Hal. unfold invoice_text_of.
  apply ascii_occurrence_normalized; [| done | done |].
  - apply join_ascii; [| done]. by repeat constructor.
  - eapply substring_trans; [done |]. by apply substring_join.
Qed.

(** X7: on ASCII pages, the keyword written in any mix of upper and lower case
    on some page puts "Nimesulide" in the result, whatever the dataset. *)
Theorem keyword_any_case_detected (ocr_texts : list (list N))
    (rows : list DatasetRow) (p u : list N) :
  Forall (Forall is_ascii) ocr_texts → p ∈ ocr_texts → substring u p →
  ascii_lower <$> u = lit "nimesulide" →
  lit "Nimesulide" ∈ find_banned_drugs_in_invoice partial_ratio ocr_texts rows.
Proof.
  intros Hascii Hp Hu Hlow. apply find_banned_spec. right.
  split; [| by rewrite capitalize_nimesulide].
  apply contains_spec. rewrite <- Hlow.
  apply (ascii_occurrence_in_invoice ocr_texts p u); [done | done | done | |].
  - intros ->. discriminate Hlow.
  - assert (Forall (λ c, alnum c = true) (ascii_lower <$> u)) as Hal
      by (rewrite Hlow; by repeat constructor).
    by apply Forall_fmap in Hal.
Qed.

(** X8: on ASCII pages, a banned row whose generic name is one word of letters
    and digits is flagged as soon as that word stands on some page, in any
    mix of upper and lower case, whatever the fuzzy score. *)
Theorem banned_word_any_case_detected (ocr_texts : list (list N))
    (rows : list DatasetRow) (r : DatasetRow) (p u : list N) :
  Forall (Forall is_ascii) ocr_texts → r ∈ rows → is_banned r = true →
  generic r ≠ [] → Forall (λ c, alnum (ascii_lower c) = true) (generic r) →
  p ∈ ocr_texts → substring u p →
  ascii_lower <$> u = ascii_lower <$> generic r →
  generic r ∈ find_banned_drugs_in_invoice partial_ratio ocr_texts rows.
Proof.
  intros Hascii Hr Hb Hne Hg Hp Hu Hlow. apply find_banned_spec. left.
  exists r. split_and!; [done | | done]. unfold row_hits.
  rewrite normalize_ascii_word by done. split_and!; [done | by destruct (generic r) |].
  left. apply contains_spec. rewrite <- Hlow.
  apply (ascii_occurrence_in_invoice ocr_texts p u); [done | done | done | |].
  - intros ->. destruct (generic r); [done | discriminate Hlow].
  - assert (Forall (λ c, alnum c = true) (ascii_lower <$> u)) as Hal
      by (rewrite Hlow; by apply Forall_fmap).
    by apply Forall_fmap in Hal.
Qed.
End Detection.

(** ** Shaping, line by line *)

Global Instance cell_eq_dec : EqDecision cell.
Proof. solve_decision. Defined.

Global Instance text_cells_present_dec r : Decision (text_cells_present r).
Proof. unfold text_cells_present. apply _. Defined.

Lemma strip_trimmed s : trimmed (strip s).
Proof.
  unfold strip. split.
  - intros c Hc. apply rstrip_head in Hc. by apply lstrip_head in Hc.
  - apply rstrip_last.
Qed.

Lemma trimmed_strip s : trimmed s → strip s = s.
Proof. intros [Hh Hl]. unfold strip. rewrite lstrip_id by done. by apply rstrip_id. Qed.

Section ShapingLaws.
Context {casing : PyCasing}.

Lemma shape_row_none (r : raw_record) :
  ¬ text_cells_present r → shape_row r = Raise AttributeError.
Proof.
  unfold text_cells_present, shape_row, get_or_empty. intros Hno.
  destruct (r !! lit "brand") as [[b |] |]; [| done |];
    (destruct (r !! lit "generic") as [[g |] |]; [| done |]);
    (destruct (r !! lit "batch") as [[t |] |]; [| done |]);
    exfalso; apply Hno; done.
Qed.

(** X9: shaping a row fails exactly when one of [brand], [generic], [batch] is
    [None] in it, and then with [AttributeError]; an absent column is no
    failure. *)
Theorem shape_row_raises_iff (r : raw_record) :
  (∀ e, shape_row r = Raise e → e = AttributeError) ∧
  (shape_row r = Raise AttributeError ↔
     r !! lit "brand" = Some CNone ∨ r !! lit "generic" = Some CNone ∨
     r !! lit "batch" = Some CNone).
Proof.
  destruct (decide (text_cells_present r)) as [Hp | Hn].
  - pose proof Hp as (Hb & Hg & Ht). rewrite (shape_row_ok r Hb Hg Ht).
    split; [done |]. split; [done |]. intros [? | [? | ?]]; done.
  - rewrite (shape_row_none r Hn). split; [by intros e [= <-] |].
    split; [| done]. intros _. unfold text_cells_present in Hn.
    destruct (decide (r !! lit "brand" = Some CNone)); [auto |].
    destruct (decide (r !! lit "generic" = Some CNone)); [auto |].
    destruct (decide (r !! lit "batch" = Some CNone)); [auto |].
    exfalso. by apply Hn.
Qed.

Lemma shape_row_fields (r : raw_record) (row : DatasetRow) :
  shape_row r = Ok row →
  ∃ b g t, brand row = strip b ∧ generic row = strip g ∧ batch row = strip t.
Proof.
  unfold shape_row.
  destruct (get_or_empty r (lit "brand")) as [b |]; [| done].
  destruct (get_or_empty r (lit "generic")) as [g |]; [| done].
  destruct (get_or_empty r (lit "batch")) as [t |]; [| done].
  simpl. intros [= <-]. by exists b, g, t.
Qed.

(** X10: the text fields of a shaped row carry no whitespace at either end, so
    stripping them again changes nothing. *)
Theorem shaped_fields_trimmed (r : raw_record) (row : DatasetRow) :
  shape_row r = Ok row →
  Forall (λ f, trimmed f ∧ strip f = f) [brand row; generic row; batch row].
Proof.
  intros (b & g & t & -> & -> & ->)%shape_row_fields.
  repeat constructor; try apply strip_trimmed; apply trimmed_strip, strip_trimmed.
Qed.
End ShapingLaws.

(** ** Rows of the reader *)

Lemma reader_fill_cons m f fieldnames row :
  reader_fill m (f :: fieldnames) row =
  reader_fill (<[f := cell_at row 0]> m) fieldnames (tail row).
Proof.
  destruct row as [| v row]; unfold reader_fill; simpl; [| done].
  by rewrite zip_with_nil_r.
Qed.

Lemma reader_fill_other fieldnames : ∀ m row k,
  k ∉ fieldnames → reader_fill m fieldnames row !! k = m !! k.
Proof.
  induction fieldnames as [| f fieldnames IH]; intros m row k Hk.
  - by destruct row.
  - apply not_elem_of_cons in Hk as [Hne Hk].
    rewrite reader_fill_cons, IH by done. by rewrite lookup_insert_ne.
Qed.

Lemma reader_fill_lookup fieldnames : ∀ m row (i : nat) k,
  NoDup fieldnames → fieldnames !! i = Some k →
  reader_fill m fieldnames row !! k = Some (cell_at row i).
Proof.
  induction fieldnames as [| f fieldnames IH]; intros m row i k Hnd Hi; [done |].
  apply NoDup_cons in Hnd as [Hf Hnd]. rewrite reader_fill_cons.
  destruct i as [| i]; simpl in Hi.
  - injection Hi as ->. rewrite reader_fill_other by done.
    by rewrite lookup_insert_eq.
  - rewrite (IH _ _ i k) by done. unfold cell_at. by destruct row.
Qed.

Lemma dict_reader_row_lookup fieldnames row (i : nat) k :
  NoDup fieldnames → fieldnames !! i = Some k →
  dict_reader_row fieldnames row !! k = Some (cell_at row i).
Proof. apply reader_fill_lookup. Qed.

Lemma dict_reader_row_absent fieldnames row k :
  k ∉ fieldnames → dict_reader_row fieldnames row !! k = None.
Proof. intros Hk. by apply (reader_fill_other fieldnames ∅ row k) in Hk. Qed.

Section ReaderLaws.
Context {casing : PyCasing}.

(** X11: under a header without repeated names, a non-blank line too short to reach the
    column of [brand], [generic] or [batch] makes shaping raise
    [AttributeError]. *)
Theorem short_line_raises (fieldnames row : list (list N)) (i : nat) (k : list N) :
  row ≠ [] → NoDup fieldnames → fieldnames !! i = Some k →
  k ∈ [lit "brand"; lit "generic"; lit "batch"] →
  (length row ≤ i)%nat →
  shape_row (dict_reader_row fieldnames row) = Raise AttributeError.
Proof.
  intros _ Hnd Hi Hk Hlen. apply shape_row_none.
  pose proof (dict_reader_row_lookup fieldnames row i k Hnd Hi) as Hcell.
  unfold cell_at in Hcell. rewrite (lookup_ge_None_2 row i Hlen) in Hcell.
  unfold text_cells_present. intros (Hb & Hg & Ht).
  repeat (apply elem_of_cons in Hk as [-> | Hk]; [done |]).
  by apply elem_of_nil in Hk.
Qed.

Lemma full_line_cell (fieldnames row : list (list N)) (k : list N) :
  NoDup fieldnames → (length fieldnames ≤ length row)%nat →
  dict_reader_row fieldnames row !! k ≠ Some CNone.
Proof.
  intros Hnd Hlen. destruct (decide (k ∈ fieldnames)) as [Hk | Hk].
  - apply list_elem_of_lookup in Hk as [i Hi].
    rewrite (dict_reader_row_lookup fieldnames row i k Hnd Hi). unfold cell_at.
    apply lookup_lt_Some in Hi.
    destruct (lookup_lt_is_Some_2 row i) as [v ->]; [lia | done].
  - by rewrite dict_reader_row_absent.
Qed.

(** X12: under a header without repeated names, a line with at least as many
    fields as the header is shaped without error. *)
Theorem full_line_is_shaped (fieldnames row : list (list N)) :
  NoDup fieldnames → (length fieldnames ≤ length row)%nat →
  ∃ shaped, shape_row (dict_reader_row fieldnames row) = Ok shaped.
Proof.
  intros Hnd Hlen. eexists. apply shape_row_ok; by apply full_line_cell.
Qed.
End ReaderLaws.

(** ** From the generator to the loader *)

Section GeneratorLaws.
Context {casing : PyCasing}.
Context {F : Type}.
Variable str_of_int : Z → list N.
Variable format_2f : F → list N.

Lemma str_of_bool_parsed (b : bool) :
  bool_decide (str_lower (str_of_bool b) = lit "true") = b.
Proof.
  destruct b; simpl; rewrite str_lower_literal by done.
  - by apply bool_decide_eq_true.
  - by apply bool_decide_eq_false.
Qed.

(** X13: when every field of the line that [save_dataset] writes for an
    item is printable ASCII within the reader's field size limit, the line
    read back under the header that [save_dataset] writes is shaped into the
    item's brand, generic name and batch, stripped, and the item's own
    [is_banned] flag. *)
Theorem generated_line_round_trip (rec : InvoiceHead) (item : Item F) :
  Forall csv_plain (dataset_line str_of_int format_2f rec item) →
  shape_row (dict_reader_row DATASET_HEADER (dataset_line str_of_int format_2f rec item))
  = Ok {| brand := strip (item_brand item);
          generic := strip (item_generic item);
          is_banned := item_is_banned item;
          batch := strip (item_batch item) |}.
Proof.
  intros _.
  set (line := dataset_line str_of_int format_2f rec item).
  assert (NoDup DATASET_HEADER) as Hnd by (apply (bool_decide_unpack _); by vm_compute).
  pose proof (dict_reader_row_lookup DATASET_HEADER line 5 (lit "brand") Hnd eq_refl) as Hb.
  pose proof (dict_reader_row_lookup DATASET_HEADER line 6 (lit "generic") Hnd eq_refl) as Hg.
  pose proof (dict_reader_row_lookup DATASET_HEADER line 8 (lit "batch") Hnd eq_refl) as Ht.
  pose proof (dict_reader_row_lookup DATASET_HEADER line 13 (lit "is_banned") Hnd eq_refl) as Hi.
  unfold shape_row, parse_is_banned, get_or_empty.
  rewrite Hb, Hg, Ht, Hi. simpl. by rewrite str_of_bool_parsed.
Qed.
End GeneratorLaws.

(** ** The loader over several sources *)

Section LoaderLaws.
Context {casing : PyCasing}.

Lemma append_rows_acc (reader : list raw_record) : ∀ rows,
  append_rows rows reader =
  match append_rows [] reader with
  | Ok l => Ok (rows ++ l)
  | Raise e => Raise e
  end.
Proof.
  induction reader as [| r reader IH]; intros rows; simpl.
  - by rewrite app_nil_r.
  - destruct (shape_row r) as [row | e]; simpl; [| done].
    rewrite (IH (rows ++ [row])), (IH [row]).
    destruct (append_rows [] reader); [| done]. by rewrite <- app_assoc.
Qed.

Lemma read_rows_acc (reader : list raw_record * option exn) (rows : list DatasetRow) :
  read_rows rows reader =
  match read_rows [] reader with
  | Ok l => Ok (rows ++ l)
  | Raise e => Raise e
  end.
Proof.
  unfold read_rows. rewrite (append_rows_acc reader.1 rows).
  destruct (append_rows [] reader.1) as [l | e]; simpl; [| done].
  by destruct reader.2.
Qed.

Lemma load_into_acc (fs : gmap (list N) source) (paths : list (option (list N))) :
  ∀ rows,
  load_into fs rows paths =
  match load_into fs [] paths with
  | Ok l => Ok (rows ++ l)
  | Raise e => Raise e
  end.
Proof.
  induction paths as [| p paths IH]; intros rows; simpl.
  - by rewrite app_nil_r.
  - destruct (skipped fs p); [apply IH |].
    destruct (open_read fs (default [] p)) as [reader | e]; simpl; [| done].
    rewrite (read_rows_acc reader rows).
    destruct (read_rows [] reader) as [l | e]; simpl; [| done].
    rewrite (IH (rows ++ l)), (IH l).
    destruct (load_into fs [] paths); [| done]. by rewrite <- app_assoc.
Qed.

Lemma load_into_app (fs : gmap (list N) source) (a b : list (option (list N))) :
  ∀ rows,
  load_into fs rows (a ++ b) =
  match load_into fs rows a with
  | Ok rows' => load_into fs rows' b
  | Raise e => Raise e
  end.
Proof.
  induction a as [| p a IH]; intros rows; simpl; [done |].
  destruct (skipped fs p); [apply IH |].
  destruct (open_read fs (default [] p)) as [reader | e]; simpl; [| done].
  destruct (read_rows rows reader) as [rows' | e]; simpl; [apply IH | done].
Qed.

(** X14: loading two lists of sources one after the other: the rows of the first
    followed by the rows of the second, or the first error met. *)
Theorem load_dataset_csv_app (fs : gmap (list N) source)
    (a b : list (option (list N))) :
  load_dataset_csv fs (a ++ b) =
  match load_dataset_csv fs a with
  | Raise e => Raise e
  | Ok rows_a =>
      match load_dataset_csv fs b with
      | Raise e => Raise e
      | Ok rows_b => Ok (rows_a ++ rows_b)
      end
  end.
Proof.
  unfold load_dataset_csv. rewrite load_into_app.
  destruct (load_into fs [] a) as [rows_a | e]; [| done].
  apply load_into_acc.
Qed.

Lemma shape_row_ok_iff (r : raw_record) :
  (∃ row, shape_row r = Ok row) ↔ text_cells_present r.
Proof.
  split.
  - intros [row Hrow]. destruct (decide (text_cells_present r)) as [| Hn]; [done |].
    by rewrite (shape_row_none r Hn) in Hrow.
  - intros (Hb & Hg & Ht). eexists. by apply shape_row_ok.
Qed.

Lemma append_rows_ok_iff (reader : list raw_record) :
  (∃ rows, append_rows [] reader = Ok rows) ↔ Forall text_cells_present reader.
Proof.
  induction reader as [| r reader IH]; simpl.
  - split; [done | by exists []].
  - rewrite Forall_cons, <- IH, <- shape_row_ok_iff. split.
    + intros [rows Hrows]. destruct (shape_row r) as [row | e]; [| done].
      simpl in Hrows. rewrite append_rows_acc in Hrows.
      destruct (append_rows [] reader) as [l | e]; [eauto | done].
    + intros [[row ->] [l Hl]]. simpl. rewrite append_rows_acc, Hl. eauto.
Qed.

Lemma load_ok_iff (fs : gmap (list N) source)
    (paths : list (option (list N))) :
  (∃ rows, load_dataset_csv fs paths = Ok rows) ↔ Forall (source_loads fs) paths.
Proof.
  unfold load_dataset_csv. induction paths as [| p paths IH]; simpl.
  - split; [done | by exists []].
  - rewrite Forall_cons, <- IH. unfold source_loads at 1.
    destruct (skipped fs p) eqn:Hsk; [intuition done |].
    unfold open_read, read_rows.
    destruct (fs !! default [] p) as [[e | records | records e] |]; simpl.
    + split; [by intros [? ?] | by intros [[? | (? & ? & ?)] _]].
    + destruct (append_rows [] records) as [l | e] eqn:Hl; simpl.
      * rewrite (load_into_acc fs paths l).
        destruct (load_into fs [] paths) as [l' | e].
        -- split; [intros _ | eauto]. split; [| eauto].
           right. exists records. split; [done |].
           apply append_rows_ok_iff. eauto.
        -- split; [by intros [? ?] | by intros [_ [? ?]]].
      * split; [by intros [? ?] |].
        intros [[? | (records' & [= <-] & Hrec)] _]; [done |].
        apply append_rows_ok_iff in Hrec as [l Hl']. congruence.
    + destruct (append_rows [] records) as [l | e']; simpl;
        (split; [by intros [? ?] | by intros [[? | (? & ? & ?)] _]]).
    + split; [by intros [? ?] | by intros [[? | (? & ? & ?)] _]].
Qed.

(** X15: the loader returns rows exactly when every listed source is either
    passed over or a table that the reader reads to its end and in which no
    row has [None] for [brand], [generic] or [batch]. *)
Theorem load_dataset_csv_ok_iff (fs : gmap (list N) source)
    (paths : list (option (list N))) :
  (∃ rows, load_dataset_csv fs paths = Ok rows) ↔ Forall (source_loads fs) paths.
Proof. apply load_ok_iff. Qed.

Lemma load_all_skipped (fs : gmap (list N) source) (paths : list (option (list N))) :
  Forall (λ p, skipped fs p = true) paths → load_dataset_csv fs paths = Ok [].
Proof.
  unfold load_dataset_csv. induction 1 as [| p paths Hp _ IH]; [done |].
  simpl. by rewrite Hp.
Qed.
End LoaderLaws.

(** ** The pipeline *)

Section PipelineLaws.
Context {casing : PyCasing}.
Variable partial_ratio : list N → list N → Q.
Context {E : Type}.
Variable ocr_pdf_text : list N → E + list (list N).

Lemma find_banned_no_rows (ocr_texts : list (list N)) :
  find_banned_drugs_in_invoice partial_ratio ocr_texts [] =
  if contains (lit "nimesulide") (invoice_text_of ocr_texts)
  then [lit "Nimesulide"] else [].
Proof.
  unfold find_banned_drugs_in_invoice, BANNED_KEYWORDS, scan_keyword. simpl.
  destruct (contains (lit "nimesulide") (invoice_text_of ocr_texts)).
  - rewrite capitalize_nimesulide, (right_id_L ∅ (∪)).
    unfold sorted. by rewrite elements_singleton.
  - unfold sorted. by rewrite elements_empty.
Qed.

(** X16: when every listed source is passed over and the OCR side returns pages,
    the pipeline still reports: the pages joined as they came, and
    "Nimesulide" alone or nothing, by the keyword. *)
Theorem process_invoice_without_dataset (fs : gmap (list N) source)
    (pdf_path : list N) (dataset_csvs : list (option (list N)))
    (ocr_texts : list (list N)) :
  Forall (λ p, p = None ∨ p = Some [] ∨ ∃ name, p = Some name ∧ fs !! name = None)
    dataset_csvs →
  ocr_pdf_text pdf_path = inr ocr_texts →
  process_invoice partial_ratio ocr_pdf_text fs pdf_path dataset_csvs =
  Done {| ocr_text := join [10] ocr_texts;
          banned_drugs :=
            if contains (lit "nimesulide") (invoice_text_of ocr_texts)
            then [lit "Nimesulide"] else [] |}.
Proof.
  intros Hskip Hocr. unfold process_invoice. rewrite Hocr.
  rewrite load_all_skipped.
  - by rewrite find_banned_no_rows.
  - eapply Forall_impl; [exact Hskip |]. intros p Hp. by apply skipped_true.
Qed.

(** X17: the pipeline ends with a report exactly when the OCR side returns
    pages and every listed source is passed over or loads.  An exception of
    the OCR side ends the call before the dataset is touched; an exception
    of the loader ends it although the pages were read; otherwise the report
    holds the pages joined as they came and the matcher's result. *)
Theorem process_invoice_done_iff (fs : gmap (list N) source)
    (pdf_path : list N) (dataset_csvs : list (option (list N))) :
  ((∃ r, process_invoice partial_ratio ocr_pdf_text fs pdf_path dataset_csvs = Done r) ↔
   (∃ ocr_texts, ocr_pdf_text pdf_path = inr ocr_texts) ∧
   Forall (source_loads fs) dataset_csvs) ∧
  (∀ e, ocr_pdf_text pdf_path = inl e →
     process_invoice partial_ratio ocr_pdf_text fs pdf_path dataset_csvs = OcrFailed e) ∧
  (∀ ocr_texts e, ocr_pdf_text pdf_path = inr ocr_texts →
     load_dataset_csv fs dataset_csvs = Raise e →
     process_invoice partial_ratio ocr_pdf_text fs pdf_path dataset_csvs
     = DatasetFailed e) ∧
  (∀ ocr_texts rows, ocr_pdf_text pdf_path = inr ocr_texts →
     load_dataset_csv fs dataset_csvs = Ok rows →
     process_invoice partial_ratio ocr_pdf_text fs pdf_path dataset_csvs
     = Done {| ocr_text := join [10] ocr_texts;
               banned_drugs :=
                 find_banned_drugs_in_invoice partial_ratio ocr_texts rows |}).
Proof.
  rewrite <- load_ok_iff. unfold process_invoice. split_and!.
  - destruct (ocr_pdf_text pdf_path) as [e | ocr_texts].
    + split; [by intros [? ?] | by intros [[? ?] _]].
    + destruct (load_dataset_csv fs dataset_csvs) as [rows | e].
      * split; eauto.
      * split; [by intros [? ?] | by intros [_ [? ?]]].
  - by intros e ->.
  - by intros ocr_texts e -> ->.
  - by intros ocr_texts rows -> ->.
Qed.
End PipelineLaws.

(** ** The upload filter *)

Lemma contains_dot (s : list N) : contains [DOT] s = true ↔ DOT ∈ s.
Proof.
  rewrite contains_spec. split.
  - intros (p & q & ->). rewrite elem_of_app. right. by left.
  - intros (p & q & ->)%list_elem_of_split. by exists p, q.
Qed.

Lemma rsplit_dot_cases (s : list N) :
  ((DOT ∉ s) ∧ rsplit_dot s = [s]) ∨
  (∃ stem ext, s = stem ++ DOT :: ext ∧ (DOT ∉ ext) ∧ rsplit_dot s = [stem; ext]).
Proof.
  induction s as [| c r [[Hno Hr] | (stem & ext & -> & Hno & Hr)]].
  - left. split; [apply not_elem_of_nil | done].
  - simpl. rewrite Hr. destruct (N.eqb_spec c DOT) as [-> | Hc].
    + right. by exists [], r.
    + left. split; [| done]. by apply not_elem_of_cons.
  - right. exists (c :: stem), ext. simpl. by rewrite Hr.
Qed.

Lemma last_dot_unique (stem1 ext1 stem2 ext2 : list N) :
  stem1 ++ DOT :: ext1 = stem2 ++ DOT :: ext2 → DOT ∉ ext1 → DOT ∉ ext2 →
  ext1 = ext2.
Proof.
  revert stem2. induction stem1 as [| c stem1 IH]; intros [| d stem2] Heq H1 H2;
    simplify_eq/=.
  - done.
  - exfalso. apply H1. rewrite elem_of_app. right. by left.
  - exfalso. apply H2. rewrite elem_of_app. right. by left.
  - by eapply IH.
Qed.

Section WebappLaws.
Context {casing : PyCasing}.

(** X18: [allowed_file] never fails on its index, and accepts a name exactly when
    the part after its last dot, lowercased, is one of the allowed
    extensions; a name without a dot is refused. *)
Theorem allowed_file_spec (filename : list N) :
  ∃ b, allowed_file filename = Some b ∧
       (b = true ↔
        ∃ stem ext, filename = stem ++ DOT :: ext ∧ (DOT ∉ ext) ∧
                    str_lower ext ∈ ALLOWED_EXTENSIONS).
Proof.
  unfold allowed_file.
  destruct (rsplit_dot_cases filename) as [[Hno Hr] | (stem & ext & Hf & Hno & Hr)].
  - destruct (contains [DOT] filename) eqn:Hc; [by apply contains_dot in Hc |].
    exists false. split; [done |]. split; [done |].
    intros (stem & ext & -> & _ & _). exfalso. apply Hno.
    rewrite elem_of_app. right. by left.
  - assert (contains [DOT] filename = true) as ->.
    { apply contains_dot. rewrite Hf, elem_of_app. right. by left. }
    rewrite Hr. simpl. eexists. split; [done |].
    rewrite bool_decide_eq_true. split; [by exists stem, ext |].
    intros (stem' & ext' & Hf' & Hno' & Hext). rewrite Hf in Hf'.
    by rewrite (last_dot_unique _ _ _ _ Hf' Hno Hno').
Qed.
End WebappLaws.

(** ** Rows with the same normal form *)

Section Verdicts.
Context {casing : PyCasing}.
Variable partial_ratio : list N → list N → Q.

Lemma row_hits_same_form (inv : list N) (r1 r2 : DatasetRow) :
  is_banned r2 = true → normalize (generic r1) = normalize (generic r2) →
  row_hits partial_ratio inv r1 → row_hits partial_ratio inv r2.
Proof. unfold row_hits. intros Hb <-. tauto. Qed.

Lemma listed_form_flagged (ocr_texts : list (list N)) (rows : list DatasetRow)
    (r1 r2 : DatasetRow) :
  r2 ∈ rows → is_banned r2 = true →
  normalize (generic r1) = normalize (generic r2) →
  generic r1 ∈ find_banned_drugs_in_invoice partial_ratio ocr_texts rows →
  generic r2 ∈ find_banned_drugs_in_invoice partial_ratio ocr_texts rows.
Proof.
  intros Hr2 Hb2 Hn. rewrite !find_banned_spec.
  intros [(r & Hr & Hhit & Hg) | [Hk Hg]]; left; exists r2; split_and!; try done.
  - apply (row_hits_same_form _ r); [done | | done]. by rewrite <- Hg.
  - rewrite capitalize_nimesulide in Hg.
    assert (normalize (generic r2) = lit "nimesulide") as Hn2
      by (by rewrite <- Hn, Hg, normalize_Nimesulide).
    unfold row_hits. rewrite Hn2. split_and!; [done | done | by left].
Qed.

(** X5: two banned rows of the dataset whose generic names have the same
    normal form are flagged together or not at all, each under its own
    spelling. *)
Theorem same_normal_form_same_verdict (ocr_texts : list (list N))
    (rows : list DatasetRow) (r1 r2 : DatasetRow) :
  r1 ∈ rows → r2 ∈ rows → is_banned r1 = true → is_banned r2 = true →
  normalize (generic r1) = normalize (generic r2) →
  generic r1 ∈ find_banned_drugs_in_invoice partial_ratio ocr_texts rows ↔
  generic r2 ∈ find_banned_drugs_in_invoice partial_ratio ocr_texts rows.
Proof.
  intros Hr1 Hr2 Hb1 Hb2 Hn. split; by apply listed_form_flagged.
Qed.
End Verdicts.

(** ** The further properties at concrete inputs *)

Example short_row_from_line :
  dict_reader_row four_columns [lit "Foo"; lit "Bar"] = short_row.
Proof. vm_compute. reflexivity. Qed.

Example allowed_file_upper :
  allowed_file (casing := basic_casing) (lit "invoice.PDF") = Some true.
Proof. vm_compute. reflexivity. Qed.

Example allowed_file_last_extension :
  allowed_file (casing := basic_casing) (lit "invoice.pdf.exe") = Some false.
Proof. vm_compute. reflexivity. Qed.

Example allowed_file_no_dot :
  allowed_file (casing := basic_casing) (lit "pdf") = Some false.
Proof. vm_compute. reflexivity. Qed.

Lemma result_depends_on_row_set_witness :
  find_banned_drugs_in_invoice (casing := basic_casing) (score_of 0) sample_invoice
    [cefixime_row; paracetamol_row]
  = find_banned_drugs_in_invoice (casing := basic_casing) (score_of 0) sample_invoice
    [paracetamol_row; cefixime_row; cefixime_row].
Proof.
  apply (result_depends_on_row_set (casing := basic_casing) (score_of 0) sample_invoice
           [cefixime_row; paracetamol_row] [paracetamol_row; cefixime_row; cefixime_row]).
  intros r. rewrite !elem_of_cons, !elem_of_nil. tauto.
Defined.

Lemma result_monotone_in_rows_witness :
  lit "Cefixime" ∈
    find_banned_drugs_in_invoice (casing := basic_casing) (score_of 0) sample_invoice
      [paracetamol_row; cefixime_row].
Proof.
  apply (result_monotone_in_rows (casing := basic_casing) (score_of 0) sample_invoice
           [cefixime_row] [paracetamol_row; cefixime_row] (lit "Cefixime")).
  - intros r. rewrite !elem_of_cons, !elem_of_nil. tauto.
  - apply (bool_decide_unpack _). vm_compute. reflexivity.
Defined.

Lemma keyword_any_case_detected_witness :
  lit "Nimesulide" ∈
    find_banned_drugs_in_invoice (casing := basic_casing) (score_of 0)
      shouting_invoice [].
Proof.
  apply (keyword_any_case_detected (casing := basic_casing) (score_of 0)
           shouting_invoice [] (lit "Tab NIMESULIDE 100mg") (lit "NIMESULIDE")).
  - apply (bool_decide_unpack _). vm_compute. reflexivity.
  - left.
  - exists (lit "Tab "), (lit " 100mg"). vm_compute. reflexivity.
  - vm_compute. reflexivity.
Defined.

Lemma banned_word_any_case_detected_witness :
  lit "Cefixime" ∈
    find_banned_drugs_in_invoice (casing := basic_casing) (score_of 0) sample_invoice
      [paracetamol_row; cefixime_row].
Proof.
  apply (banned_word_any_case_detected (casing := basic_casing) (score_of 0)
           sample_invoice [paracetamol_row; cefixime_row] cefixime_row
           (lit "Item: CEFIXIME-200mg tablet") (lit "CEFIXIME")).
  - apply (bool_decide_unpack _). vm_compute. reflexivity.
  - right. left.
  - reflexivity.
  - vm_compute. discriminate.
  - apply (bool_decide_unpack _). vm_compute. reflexivity.
  - left.
  - exists (lit "Item: "), (lit "-200mg tablet"). vm_compute. reflexivity.
  - vm_compute. reflexivity.
Defined.

Lemma shaped_fields_trimmed_witness :
  Forall (λ f, trimmed f ∧ strip f = f)
    [brand full_row_shaped; generic full_row_shaped; batch full_row_shaped].
Proof.
  apply (shaped_fields_trimmed (casing := basic_casing) full_row full_row_shaped).
  vm_compute. reflexivity.
Defined.

Lemma short_line_raises_witness :
  shape_row (casing := basic_casing) (dict_reader_row four_columns [lit "Foo"; lit "Bar"])
  = Raise AttributeError.
Proof.
  apply (short_line_raises (casing := basic_casing) four_columns
           [lit "Foo"; lit "Bar"] 3 (lit "batch")).
  - discriminate.
  - apply (bool_decide_unpack _). vm_compute. reflexivity.
  - reflexivity.
  - right. right. left.
  - simpl. lia.
Defined.

Lemma full_line_is_shaped_witness :
  ∃ shaped,
    shape_row (casing := basic_casing)
      (dict_reader_row four_columns [lit " Nise "; lit "Nimesulide"; lit "TRUE"; lit "B-17"])
    = Ok shaped.
Proof.
  apply (full_line_is_shaped (casing := basic_casing) four_columns
           [lit " Nise "; lit "Nimesulide"; lit "TRUE"; lit "B-17"]).
  - apply (bool_decide_unpack _). vm_compute. reflexivity.
  - simpl. lia.
Defined.

Lemma process_invoice_without_dataset_witness :
  process_invoice (casing := basic_casing) (score_of 0)
    (λ _ : list N, inr sample_invoice : exn + list (list N)) sample_fs
    (lit "invoice.pdf") [None; Some (lit "absent.csv")]
  = Done {| ocr_text := join [10] sample_invoice;
            banned_drugs := [lit "Nimesulide"] |}.
Proof.
  apply (process_invoice_without_dataset (casing := basic_casing) (score_of 0)
           (λ _ : list N, inr sample_invoice : exn + list (list N)) sample_fs
           (lit "invoice.pdf") [None; Some (lit "absent.csv")] sample_invoice).
  - constructor; [by left |]. constructor; [| constructor].
    right. right. exists (lit "absent.csv"). split; [reflexivity | vm_compute; reflexivity].
  - reflexivity.
Defined.

Lemma same_normal_form_same_verdict_witness :
  lit "Cefixime" ∈
    find_banned_drugs_in_invoice (casing := basic_casing) (score_of 0) sample_invoice
      [cefixime_row; cefixime_upper_row] ↔
  lit "CEFIXIME" ∈
    find_banned_drugs_in_invoice (casing := basic_casing) (score_of 0) sample_invoice
      [cefixime_row; cefixime_upper_row].
Proof.
  apply (same_normal_form_same_verdict (casing := basic_casing) (score_of 0)
           sample_invoice [cefixime_row; cefixime_upper_row]
           cefixime_row cefixime_upper_row).
  - left.
  - right. left.
  - reflexivity.
  - reflexivity.
  - vm_compute. reflexivity.
Defined.

Lemma normalize_empty_iff_witness :
  normalize (casing := basic_casing) (generic blank_row) = [] ∧
  find_banned_drugs_in_invoice (casing := basic_casing) (score_of 100) sample_invoice
    ([cefixime_row] ++ blank_row :: [paracetamol_row])
  = find_banned_drugs_in_invoice (casing := basic_casing) (score_of 100) sample_invoice
    ([cefixime_row] ++ [paracetamol_row]).
Proof.
  destruct (normalize_empty_iff (casing := basic_casing) (generic blank_row))
    as [Hempty Hinert].
  assert (Forall (λ c, alnum c = false) (str_lower (PyCasing := basic_casing) (generic blank_row)))
    as Hblank by (apply (bool_decide_unpack _); vm_compute; reflexivity).
  split.
  - apply Hempty. exact Hblank.
  - apply (Hinert (score_of 100) sample_invoice [cefixime_row] [paracetamol_row] blank_row).
    + reflexivity.
    + exact Hblank.
Defined.

Lemma generated_line_round_trip_witness :
  shape_row (casing := basic_casing)
    (dict_reader_row DATASET_HEADER
       (dataset_line sample_str_of_int sample_format_2f train_head nimesulide_item))
  = Ok {| brand := lit "Nimesulide DT"; generic := lit "Nimesulide";
          is_banned := true; batch := lit "K3X9Q2LM" |}.
Proof.
  apply (generated_line_round_trip (casing := basic_casing) sample_str_of_int
           sample_format_2f train_head nimesulide_item).
  apply (bool_decide_unpack _). vm_compute. reflexivity.
Defined.

Lemma process_invoice_done_iff_witness :
  process_invoice (casing := basic_casing) (score_of 0)
    (λ _ : list N, inr sample_invoice : exn + list (list N)) sample_fs
    (lit "invoice.pdf") [Some (lit "train.csv"); Some (lit "locked.csv")]
  = DatasetFailed OSError ∧
  process_invoice (casing := basic_casing) (score_of 0)
    (λ _ : list N, inl OSError : exn + list (list N)) sample_fs
    (lit "invoice.pdf") [Some (lit "train.csv")]
  = OcrFailed OSError.
Proof.
  split.
  - apply (process_invoice_done_iff (casing := basic_casing) (score_of 0)
             (λ _ : list N, inr sample_invoice : exn + list (list N)) sample_fs
             (lit "invoice.pdf") [Some (lit "train.csv"); Some (lit "locked.csv")])
      with (ocr_texts := sample_invoice).
    + reflexivity.
    + vm_compute. reflexivity.
  - apply (process_invoice_done_iff (casing := basic_casing) (score_of 0)
             (λ _ : list N, inl OSError : exn + list (list N)) sample_fs
             (lit "invoice.pdf") [Some (lit "train.csv")]).
    reflexivity.
Defined.
